(** * The UPDATE statement builder of ng-db-helper

    A shallow embedding of [src/lib/core/models/queries/update.model.ts]
    ([QueryUpdate.where], [QueryUpdate.build], [Update]) together with the
    collaborators it calls: [Clause], [ClauseGroup], [DbQuery], the model
    instance and [ModelManager.getModel].

    JavaScript objects that are mutated through [this] are modelled by
    explicit state passing: a method of [QueryUpdate] is a computation
    over the builder, which may throw. *)

From Stdlib Require Import ZArith List String Ascii Bool Lia.
From stdpp Require Import base option list strings gmap.

#[local] Set Warnings "-register-all".

Local Open Scope string_scope.
Local Open Scope list_scope.

(** ** JavaScript values *)

(** The values a property of a model or a clause can hold. Numbers are
    the integral ones plus NaN, which is all that truthiness
    distinguishes; an object other than an array (a function, a nested
    object) is known by a reference. *)
Inductive JsValue : Type :=
| JsUndefined
| JsNull
| JsBool (b : bool)
| JsNum (z : Z)
| JsNaN
| JsStr (s : string)
| JsArr (l : list JsValue)
| JsObject (ref : string).

(** ToBoolean: what [if (v)] and [a || v] test. *)
Definition truthy (v : JsValue) : bool :=
  match v with
  | JsUndefined | JsNull | JsNaN => false
  | JsBool b => b
  | JsNum z => negb (z =? 0)%Z
  | JsStr s => negb (String.eqb s "")
  | JsArr _ => true
  | JsObject _ => true
  end.

(** [Array.prototype.indexOf] on an array of strings: the first index
    holding [x], or -1. *)
Fixpoint indexOfFrom (i : Z) (x : string) (l : list string) : Z :=
  match l with
  | [] => (-1)%Z
  | y :: l' => if String.eqb y x then i else indexOfFrom (i + 1)%Z x l'
  end.

Definition indexOf (x : string) (l : list string) : Z := indexOfFrom 0 x l.

(** [Array.prototype.join] on an array of strings. *)
Definition join (sep : string) (l : list string) : string := String.concat sep l.

(** String concatenation with a possibly unset operand: [undefined]
    prints as the word. *)
Definition jsString (o : option string) : string := default "undefined" o.

(** ** Observations on query text *)

Fixpoint isPrefix (w s : string) : bool :=
  match w, s with
  | EmptyString, _ => true
  | String a w', String b s' => Ascii.eqb a b && isPrefix w' s'
  | String _ _, EmptyString => false
  end.

(** Number of positions of [s] at which [w] occurs. *)
Fixpoint occurrences (w s : string) : nat :=
  match s with
  | EmptyString => if isPrefix w s then 1 else 0
  | String _ s' => (if isPrefix w s then 1 else 0) + occurrences w s'
  end.

Definition contains (w s : string) : bool := negb (Nat.eqb (occurrences w s) 0).

(** The positional placeholder of the wire format. *)
Definition placeholder : string := "(?)".

Definition countPlaceholders (s : string) : nat := occurrences placeholder s.

(** Number of question marks, which also counts the placeholders of a
    membership list [(?, ?, ?)]. *)
Fixpoint countQuestionMarks (s : string) : nat :=
  match s with
  | EmptyString => 0
  | String c s' => (if Ascii.eqb c "?" then 1 else 0) + countQuestionMarks s'
  end.

(** Two texts are equivalent when they have the same words, that is, when
    they differ in white space only. *)
Definition equivalentText (s1 s2 : string) : Prop :=
  String.words s1 = String.words s2.

(** ** Outcomes *)

Inductive Error : Type :=
| UnregisteredModel (modelType : string).

(** A call either returns or throws. *)
Inductive result (A : Type) : Type :=
| Ok (a : A)
| Throw (e : Error).

Arguments Ok {A} a.
Arguments Throw {A} e.

(** ** DbQuery *)

Module DbQuery.

(** Modelled from the spec: the class [DbQuery], which the builder
    imports from [../db-query.model]. The spec gives it the four members
    below; [table] and [type] are unset on a fresh instance, [query] is
    the empty text and [params] the empty array. *)
Record t : Type := mk {
  table : option string;
  type : option string;
  query : string;
  params : list JsValue
}.

(** Modelled from the spec: [new DbQuery()], the empty accumulator. *)
Definition new : t :=
  {| table := None; type := None; query := ""; params := [] |}.

(** [q.table = v] *)
Definition setTable (q : t) (v : string) : t :=
  {| table := Some v; type := type q; query := query q; params := params q |}.

(** [q.type = v] *)
Definition setType (q : t) (v : string) : t :=
  {| table := table q; type := Some v; query := query q; params := params q |}.

(** [q.query += s] *)
Definition addText (q : t) (s : string) : t :=
  {| table := table q; type := type q; query := query q +:+ s; params := params q |}.

(** [q.params = ps] *)
Definition setParams (q : t) (ps : list JsValue) : t :=
  {| table := table q; type := type q; query := query q; params := ps |}.

(** Modelled from the spec: [append(other)] concatenates [other.query]
    to [query] and [other.params] to [params], preserving order. *)
Definition append (q : t) (other : t) : t :=
  {| table := table q; type := type q;
     query := query q +:+ query other;
     params := params q ++ params other |}.

End DbQuery.

(** ** Clause *)

(** Modelled from the spec: the logical connector of a clause to the
    previous one. *)
Inductive Connector : Type := AND | OR.

Definition connectorText (c : Connector) : string :=
  match c with AND => "AND" | OR => "OR" end.

Module Clause.

(** Modelled from the spec: the class [Clause], which the builder imports
    from [./clause.model]: a column key, a comparator, a value (a scalar,
    or a list for a membership test) and the logical connector to the
    previous clause. *)
Record t : Type := mk {
  key : string;
  operator : string;
  value : JsValue;
  connector : Connector
}.

(** Modelled from the spec: [new Clause()]. The comparator defaults to
    equality and the connector to AND; key and value are set by the
    caller. *)
Definition new : t :=
  {| key := ""; operator := "="; value := JsUndefined; connector := AND |}.

(** [c.key = k] *)
Definition setKey (c : t) (k : string) : t :=
  {| key := k; operator := operator c; value := value c; connector := connector c |}.

(** [c.value = v] *)
Definition setValue (c : t) (v : JsValue) : t :=
  {| key := key c; operator := operator c; value := v; connector := connector c |}.

(** Modelled from the spec: the bound values of a clause, in placeholder
    order: the elements of a list value, or the scalar itself. *)
Definition boundValues (c : t) : list JsValue :=
  match value c with
  | JsArr l => l
  | v => [v]
  end.

(** Modelled from the spec: a clause renders as [<key> <operator> (?)],
    a list-valued one as [<key> IN (?, ?, ...)] with one placeholder per
    element. Every rendered fragment starts with one space, so that
    fragments joined by [DbQuery.append] stay separate words. *)
Definition text (c : t) : string :=
  match value c with
  | JsArr l => " " +:+ key c +:+ " IN (" +:+ join ", " (map (fun _ => "?") l) +:+ ")"
  | _ => " " +:+ key c +:+ " " +:+ operator c +:+ " " +:+ placeholder
  end.

(** Modelled from the spec: the fragment of a clause, its text with its
    bound values. *)
Definition build (c : t) : DbQuery.t :=
  DbQuery.setParams (DbQuery.addText DbQuery.new (text c)) (boundValues c).

End Clause.

(** ** ClauseGroup *)

(** Modelled from the spec: an entry of a group is a clause or a nested
    group, each with its connector to the previous entry (a clause carries
    its own). *)
Inductive Entry : Type :=
| EntryClause (c : Clause.t)
| EntryGroup (conn : Connector) (inner : list Entry).

(** Modelled from the spec: the connector in front of an entry; the first
    entry of a group has none. *)
Definition leading (first : bool) (c : Connector) : string :=
  if first then "" else " " +:+ connectorText c.

(** Modelled from the spec: entries render left to right, a nested group
    as [( <inner> )], and the parameters are listed in the order of the
    placeholders. *)
Fixpoint buildEntry (first : bool) (e : Entry) : DbQuery.t :=
  match e with
  | EntryClause c =>
      DbQuery.append
        (DbQuery.addText DbQuery.new (leading first (Clause.connector c)))
        (Clause.build c)
  | EntryGroup conn inner =>
      let body :=
        (fix go (first : bool) (es : list Entry) : DbQuery.t :=
           match es with
           | [] => DbQuery.new
           | e :: es' => DbQuery.append (buildEntry first e) (go false es')
           end) true inner in
      DbQuery.addText
        (DbQuery.append
           (DbQuery.addText DbQuery.new (leading first conn +:+ " (")) body)
        " )"
  end.

(** Modelled from the spec: the entries of a group, rendered left to
    right. *)
Fixpoint buildEntries (first : bool) (es : list Entry) : DbQuery.t :=
  match es with
  | [] => DbQuery.new
  | e :: es' => DbQuery.append (buildEntry first e) (buildEntries false es')
  end.

Module ClauseGroup.

(** Modelled from the spec: the class [ClauseGroup], which the builder
    imports from [./clause-group.model]: an ordered sequence of entries,
    and the connector that links the group to the previous entry when it
    is nested. *)
Record t : Type := mk {
  connector : Connector;
  entries : list Entry
}.

(** Modelled from the spec: [new ClauseGroup()], the empty group. *)
Definition new : t := {| connector := AND; entries := [] |}.

(** The shapes [add] and [QueryUpdate.where] accept:
    [Clause|Clause[]|ClauseGroup|Object]. A plain object is the ordered
    list of its own properties. *)
Inductive input : Type :=
| ofClause (c : Clause.t)
| ofClauses (cs : list Clause.t)
| ofGroup (g : t)
| ofObject (o : list (string * JsValue)).

(** Modelled from the spec: the entries an input stands for. A nested
    group stays nested, a key-value mapping gives implicit-equality
    clauses joined by AND. *)
Definition normalize (i : input) : list Entry :=
  match i with
  | ofClause c => [EntryClause c]
  | ofClauses cs => map EntryClause cs
  | ofGroup g => [EntryGroup (connector g) (entries g)]
  | ofObject o =>
      map (fun kv => EntryClause (Clause.setValue (Clause.setKey Clause.new (fst kv)) (snd kv))) o
  end.

(** Modelled from the spec: [add(input)] appends the normalized entries. *)
Definition add (g : t) (i : input) : t :=
  {| connector := connector g; entries := entries g ++ normalize i |}.

(** Modelled from the spec: [build()] renders the entries. *)
Definition build (g : t) : DbQuery.t := buildEntries true (entries g).

End ClauseGroup.

(** ** Model metadata and model instances *)

Module DbColumn.

(** Modelled from the spec: a column description, with the members the
    builder reads. *)
Record t : Type := mk {
  name : string;
  field : string;
  primaryKey : bool
}.

End DbColumn.

Module DbTable.

(** Modelled from the spec: the metadata of a table, its name and its
    columns in declared order. *)
Record t : Type := mk {
  name : string;
  columnList : list DbColumn.t
}.

End DbTable.

Module DbHelperModel.

(** Modelled from the spec: a model instance, of the class [DbHelperModel]
    that the builder imports from [../db-helper-model.model]. It has a
    type under which it is registered, an optional internal row identity
    (a number), an optional partial-update projection (an array of column
    names), its other own properties ([fields]) and the properties it
    inherits along its prototype chain ([inherited]: the methods of its
    class, [constructor], the members of [Object.prototype]). *)
Record t : Type := mk {
  modelType : string;
  __rowid : option Z;
  __partialWithProjection : option (list string);
  fields : gmap string JsValue;
  inherited : gmap string JsValue
}.

(** [model.__rowid] as a value *)
Definition rowid (m : t) : JsValue :=
  match __rowid m with
  | Some z => JsNum z
  | None => JsUndefined
  end.

(** [model.__partialWithProjection] as a value *)
Definition projection (m : t) : JsValue :=
  match __partialWithProjection m with
  | Some names => JsArr (map JsStr names)
  | None => JsUndefined
  end.

(** [(model as {[index:string]: any})[field]], an ordinary property read:
    the two internal properties under their names, any other name among
    the own properties first and along the prototype chain next;
    [undefined] when the name is found nowhere. *)
Definition get (m : t) (f : string) : JsValue :=
  if String.eqb f "__rowid" then rowid m
  else if String.eqb f "__partialWithProjection" then projection m
  else match fields m !! f with
       | Some v => v
       | None => default JsUndefined (inherited m !! f)
       end.

(** [field in model]: whether the instance has the property, as its own
    or inherited. *)
Definition has (m : t) (f : string) : bool :=
  if String.eqb f "__rowid" then bool_decide (is_Some (__rowid m))
  else if String.eqb f "__partialWithProjection"
       then bool_decide (is_Some (__partialWithProjection m))
       else bool_decide (is_Some (fields m !! f)) || bool_decide (is_Some (inherited m !! f)).

End DbHelperModel.

Module ModelManager.

(** Modelled from the spec: the registry behind
    [ModelManager.getInstance()], which the builder imports from
    [../../managers/model-manager]: the tables by model type. *)
Record t : Type := mk {
  tables : gmap string DbTable.t
}.

(** Modelled from the spec: [getModel(instance)] gives the metadata of
    the instance's type and fails with a lookup error if the type was
    never registered. *)
Definition getModel (mm : t) (m : DbHelperModel.t) : result DbTable.t :=
  match tables mm !! DbHelperModel.modelType m with
  | Some table => Ok table
  | None => Throw (UnregisteredModel (DbHelperModel.modelType m))
  end.

End ModelManager.

(** ** QueryUpdate *)

Module QueryUpdate.

(** The builder: the bound model, the [partial] constructor argument and
    the lazily created where group ([None] is the unset field). *)
Record t : Type := mk {
  model : DbHelperModel.t;
  partial : bool;
  whereClauses : option ClauseGroup.t
}.

(** [private type = 'UPDATE'] *)
Definition type : string := "UPDATE".

(** [new QueryUpdate(model, partial)] *)
Definition new (model : DbHelperModel.t) (partial : bool) : t :=
  {| model := model; partial := partial; whereClauses := None |}.

(** [this.where(clauses)]: creates the group on first use and adds the
    clauses to it; the result is the builder after the call, which is
    also what the method returns. *)
Definition where_ (self : t) (clauses : ClauseGroup.input) : t :=
  let group :=
    match whereClauses self with
    | Some g => g
    | None => ClauseGroup.new
    end in
  {| model := model self; partial := partial self;
     whereClauses := Some (ClauseGroup.add group clauses) |}.

(** The clause [build] synthesizes for a key and a value. *)
Definition identityClause (key : string) (value : JsValue) : Clause.t :=
  Clause.setValue (Clause.setKey Clause.new key) value.

(** Body of the loop over the columns flagged primary-key. *)
Definition keyStep (self : t) (column : DbColumn.t) : t :=
  if DbColumn.primaryKey column then
    where_ self
      (ClauseGroup.ofClause
         (identityClause (DbColumn.name column)
            (DbHelperModel.get (model self) (DbColumn.field column))))
  else self.

(** First part of [build]: the identity clauses are folded into the
    builder through [where]. *)
Definition addIdentity (table : DbTable.t) (self : t) : t :=
  if truthy (DbHelperModel.rowid (model self)) then
    where_ self
      (ClauseGroup.ofClause (identityClause "rowid" (DbHelperModel.rowid (model self))))
  else
    fold_left keyStep (DbTable.columnList table) self.

(** Body of the loop that fills [columnsToUpdate] and [values]. *)
Definition selectStep (m : DbHelperModel.t)
           (acc : list string * list JsValue) (column : DbColumn.t)
  : list string * list JsValue :=
  let '(columnsToUpdate, values) := acc in
  match DbHelperModel.__partialWithProjection m with
  | Some projection =>
      if (0 <=? indexOf (DbColumn.name column) projection)%Z
         || truthy (DbHelperModel.get m (DbColumn.field column))
      then (columnsToUpdate ++ [DbColumn.name column],
            values ++ [DbHelperModel.get m (DbColumn.field column)])
      else (columnsToUpdate, values)
  | None =>
      (columnsToUpdate ++ [DbColumn.name column],
       values ++ [DbHelperModel.get m (DbColumn.field column)])
  end.

Definition selectColumns (m : DbHelperModel.t) (columnList : list DbColumn.t)
  : list string * list JsValue :=
  fold_left (selectStep m) columnList ([], []).

(** [this.build()]: the outcome and the builder after the call. *)
Definition build (mm : ModelManager.t) (self : t) : result DbQuery.t * t :=
  match ModelManager.getModel mm (model self) with
  | Throw e => (Throw e, self)
  | Ok table =>
      let dbQuery := DbQuery.new in
      let dbQuery := DbQuery.setTable dbQuery (DbTable.name table) in
      let dbQuery := DbQuery.setType dbQuery type in
      let self := addIdentity table self in
      let dbQuery :=
        DbQuery.addText dbQuery (type +:+ " " +:+ jsString (DbQuery.table dbQuery)) in
      let '(columnsToUpdate, values) :=
        selectColumns (model self) (DbTable.columnList table) in
      let dbQuery :=
        DbQuery.addText dbQuery
          (" SET " +:+ join " = (?), " columnsToUpdate +:+ " = (?) ") in
      let dbQuery := DbQuery.setParams dbQuery (DbQuery.params dbQuery ++ values) in
      let dbQuery :=
        match whereClauses self with
        | Some group =>
            DbQuery.append (DbQuery.addText dbQuery " WHERE") (ClauseGroup.build group)
        | None => dbQuery
        end in
      (Ok dbQuery, self)
  end.

End QueryUpdate.

(** [Update(model, partial)] *)
Definition Update (model : DbHelperModel.t) (partial : bool) : QueryUpdate.t :=
  QueryUpdate.new model partial.

(** The query of a call that returned. *)
Definition returned (r : result DbQuery.t * QueryUpdate.t) : option DbQuery.t :=
  match fst r with
  | Ok q => Some q
  | Throw _ => None
  end.

(** ** Vocabulary of the statements *)

(** The test [build] applies to a column when it fills the SET list. *)
Definition keeps (m : DbHelperModel.t) (column : DbColumn.t) : bool :=
  match DbHelperModel.__partialWithProjection m with
  | Some projection =>
      (0 <=? indexOf (DbColumn.name column) projection)%Z
      || truthy (DbHelperModel.get m (DbColumn.field column))
  | None => true
  end.

(** The value of a column's field on an instance. *)
Definition valueOf (m : DbHelperModel.t) (column : DbColumn.t) : JsValue :=
  DbHelperModel.get m (DbColumn.field column).

(** The SET list of a built query and the values bound to it. *)
Definition setList (m : DbHelperModel.t) (table : DbTable.t) : list string :=
  fst (QueryUpdate.selectColumns m (DbTable.columnList table)).

Definition setValues (m : DbHelperModel.t) (table : DbTable.t) : list JsValue :=
  snd (QueryUpdate.selectColumns m (DbTable.columnList table)).

(** The text [build] emits before any WHERE keyword. *)
Definition setText (m : DbHelperModel.t) (table : DbTable.t) : string :=
  "UPDATE " +:+ DbTable.name table +:+ " SET "
  +:+ join " = (?), " (setList m table) +:+ " = (?) ".

(** The columns flagged primary-key, in declared order. *)
Definition primaryKeys (table : DbTable.t) : list DbColumn.t :=
  List.filter DbColumn.primaryKey (DbTable.columnList table).

(** The equality clause on a primary-key column. *)
Definition keyClause (m : DbHelperModel.t) (column : DbColumn.t) : Clause.t :=
  {| Clause.key := DbColumn.name column; Clause.operator := "=";
     Clause.value := valueOf m column; Clause.connector := AND |}.

(** The equality clause on the row identity. *)
Definition rowidClause (z : Z) : Clause.t :=
  {| Clause.key := "rowid"; Clause.operator := "=";
     Clause.value := JsNum z; Clause.connector := AND |}.

(** The identity clauses [build] synthesizes. *)
Definition identityEntries (m : DbHelperModel.t) (table : DbTable.t) : list Entry :=
  if truthy (DbHelperModel.rowid m)
  then [EntryClause (QueryUpdate.identityClause "rowid" (DbHelperModel.rowid m))]
  else map (fun column => EntryClause (keyClause m column)) (primaryKeys table).

(** The entries of the where group of a builder; none while it is unset. *)
Definition groupEntries (w : option ClauseGroup.t) : list Entry :=
  match w with
  | Some g => ClauseGroup.entries g
  | None => []
  end.

Definition whereEntries (self : QueryUpdate.t) : list Entry :=
  groupEntries (QueryUpdate.whereClauses self).

(** The text and the parameters that [build] appends for a where group. *)
Definition whereText (w : option ClauseGroup.t) : string :=
  match w with
  | Some g => " WHERE" +:+ DbQuery.query (ClauseGroup.build g)
  | None => ""
  end.

Definition whereParams (w : option ClauseGroup.t) : list JsValue :=
  match w with
  | Some g => DbQuery.params (ClauseGroup.build g)
  | None => []
  end.

(** The where group after more entries went through [where]: created if
    it was unset, untouched if there is nothing to add. *)
Definition extend (w : option ClauseGroup.t) (es : list Entry) : option ClauseGroup.t :=
  match es with
  | [] => w
  | _ :: _ =>
      Some {| ClauseGroup.connector := ClauseGroup.connector (default ClauseGroup.new w);
              ClauseGroup.entries := ClauseGroup.entries (default ClauseGroup.new w) ++ es |}
  end.

(** The keyword in front of a where clause, as [build] emits it. *)
Definition whereKeyword : string := " WHERE".

(** An identifier shows the keyword when, written between two spaces as
    [build] writes it, it contains [ WHERE]. *)
Definition showsKeyword (identifier : string) : bool :=
  contains whereKeyword (" " +:+ identifier +:+ " ").

(** Texts, clauses and entries without question mark of their own. *)
Definition cleanText (s : string) : bool := Nat.eqb (countQuestionMarks s) 0.

Definition cleanClause (c : Clause.t) : bool :=
  cleanText (Clause.key c) && cleanText (Clause.operator c).

Fixpoint cleanEntry (e : Entry) : bool :=
  match e with
  | EntryClause c => cleanClause c
  | EntryGroup _ inner => forallb cleanEntry inner
  end.

Definition cleanTable (table : DbTable.t) : bool :=
  cleanText (DbTable.name table)
  && forallb (fun column => cleanText (DbColumn.name column)) (DbTable.columnList table).

(** Induction on entries, through the nested groups. *)
Fixpoint Entry_nested_ind (P : Entry -> Prop)
         (Hclause : forall c, P (EntryClause c))
         (Hgroup : forall conn inner, Forall P inner -> P (EntryGroup conn inner))
         (e : Entry) : P e :=
  match e with
  | EntryClause c => Hclause c
  | EntryGroup conn inner =>
      Hgroup conn inner
        ((fix all (l : list Entry) : Forall P l :=
            match l with
            | [] => @List.Forall_nil Entry P
            | x :: l' =>
                @List.Forall_cons Entry P x l' (Entry_nested_ind P Hclause Hgroup x) (all l')
            end) inner)
  end.

(** A value other than an array. *)
Definition isScalar (v : JsValue) : bool :=
  match v with
  | JsArr _ => false
  | _ => true
  end.

(** A registry holding one table. *)
Definition registry (modelType : string) (table : DbTable.t) : ModelManager.t :=
  {| ModelManager.tables := <[modelType := table]> ∅ |}.

(** The values bound by the identity clauses, in placeholder order. *)
Definition identityValues (m : DbHelperModel.t) (table : DbTable.t) : list JsValue :=
  DbQuery.params (buildEntries true (identityEntries m table)).

(** ** Sample data *)

(** A column stored in the field of the same name. *)
Definition column (name : string) (primaryKey : bool) : DbColumn.t :=
  {| DbColumn.name := name; DbColumn.field := name; DbColumn.primaryKey := primaryKey |}.

(** What the sample instances inherit: the methods of their class and of
    [Object.prototype]. *)
Definition modelPrototype : gmap string JsValue :=
  <["constructor" := JsObject "constructor"]>
    (<["save" := JsObject "save"]>
       (<["toString" := JsObject "toString"]>
          (<["hasOwnProperty" := JsObject "hasOwnProperty"]> ∅))).

(** The table [todo] with its single primary key [id]. *)
Definition todoTable : DbTable.t :=
  {| DbTable.name := "todo";
     DbTable.columnList := [column "title" false; column "done" false; column "id" true] |}.

(** The instance [{title: "buy milk", done: false, id: 7}], with the given
    row identity. *)
Definition todo (rowid : option Z) : DbHelperModel.t :=
  {| DbHelperModel.modelType := "Todo";
     DbHelperModel.__rowid := rowid;
     DbHelperModel.__partialWithProjection := None;
     DbHelperModel.fields :=
       <["title" := JsStr "buy milk"]> (<["done" := JsBool false]> (<["id" := JsNum 7]> ∅));
     DbHelperModel.inherited := modelPrototype |}.

Definition todos : ModelManager.t := registry "Todo" todoTable.

(** A table without primary key. *)
Definition personTable : DbTable.t :=
  {| DbTable.name := "person";
     DbTable.columnList := [column "name" false; column "age" false] |}.

(** The instance [{name: n, age: 0}], with the given projection. *)
Definition person (n : string) (projection : option (list string)) : DbHelperModel.t :=
  {| DbHelperModel.modelType := "Person";
     DbHelperModel.__rowid := None;
     DbHelperModel.__partialWithProjection := projection;
     DbHelperModel.fields := <["name" := JsStr n]> (<["age" := JsNum 0]> ∅);
     DbHelperModel.inherited := modelPrototype |}.

Definition persons : ModelManager.t := registry "Person" personTable.

(** A caller-added clause [done = false]. *)
Definition notDone : Clause.t :=
  {| Clause.key := "done"; Clause.operator := "="; Clause.value := JsBool false;
     Clause.connector := AND |}.

(** ** Repeated calls *)

(** The builder after [n] successive calls of [build]. *)
Fixpoint buildTimes (mm : ModelManager.t) (n : nat) (self : QueryUpdate.t) : QueryUpdate.t :=
  match n with
  | 0 => self
  | S n' => buildTimes mm n' (snd (QueryUpdate.build mm self))
  end.


(** * Properties *)

(** Closed goals are settled by evaluation. *)
Ltac evaluate := vm_compute; reflexivity.

(** ** Strings *)

Lemma append_cons (a : ascii) (s t : string) :
  String a s +:+ t = String a (s +:+ t).
Proof. reflexivity. Qed.

Lemma append_nil_l (s : string) : "" +:+ s = s.
Proof. reflexivity. Qed.

Lemma append_nil_r (s : string) : s +:+ "" = s.
Proof. induction s as [|a s IH]; [reflexivity|]. rewrite append_cons, IH. reflexivity. Qed.

Lemma append_assoc (s t u : string) : (s +:+ t) +:+ u = s +:+ (t +:+ u).
Proof.
  induction s as [|a s IH]; [reflexivity|].
  rewrite !append_cons, IH. reflexivity.
Qed.

Lemma countQuestionMarks_append (s t : string) :
  countQuestionMarks (s +:+ t) = countQuestionMarks s + countQuestionMarks t.
Proof.
  induction s as [|a s IH]; [reflexivity|].
  rewrite append_cons. simpl. rewrite IH. lia.
Qed.

(** ** Arrays and clause groups *)

Lemma indexOfFrom_In (i : Z) (x : string) (l : list string) :
  (0 <= i)%Z -> ((0 <=? indexOfFrom i x l)%Z = true <-> In x l).
Proof.
  revert i. induction l as [|y l IH]; intros i Hi; simpl.
  - split; [discriminate | tauto].
  - destruct (String.eqb_spec y x) as [->|Hne].
    + split; [now left | intros _; apply Z.leb_le; lia].
    + rewrite (IH (i + 1)%Z) by lia. split; [now right | intros [H|H]; [congruence | exact H]].
Qed.

(** [indexOf] finds exactly the members. *)
Lemma indexOf_In (x : string) (l : list string) :
  (0 <=? indexOf x l)%Z = true <-> In x l.
Proof. apply indexOfFrom_In. lia. Qed.

(** The text of a list of entries does depend on whether its first entry
    is the first of the group; the parameters do not. *)
Lemma buildEntry_params_first (e : Entry) (f1 f2 : bool) :
  DbQuery.params (buildEntry f1 e) = DbQuery.params (buildEntry f2 e).
Proof. destruct e; reflexivity. Qed.

Lemma buildEntries_params_first (es : list Entry) (f1 f2 : bool) :
  DbQuery.params (buildEntries f1 es) = DbQuery.params (buildEntries f2 es).
Proof.
  destruct es as [|e es]; [reflexivity|].
  simpl. f_equal. apply buildEntry_params_first.
Qed.

Lemma buildEntries_app_params (f : bool) (es1 es2 : list Entry) :
  DbQuery.params (buildEntries f (es1 ++ es2)) =
  DbQuery.params (buildEntries f es1) ++ DbQuery.params (buildEntries f es2).
Proof.
  revert f. induction es1 as [|e es1 IH]; intros f.
  - reflexivity.
  - simpl. rewrite IH, <- app_assoc.
    rewrite (buildEntries_params_first es2 false f). reflexivity.
Qed.

Lemma buildEntries_app_query (f : bool) (es1 es2 : list Entry) :
  DbQuery.query (buildEntries f (es1 ++ es2)) =
  DbQuery.query (buildEntries f es1)
  +:+ DbQuery.query (buildEntries (match es1 with [] => f | _ => false end) es2).
Proof.
  revert f. induction es1 as [|e es1 IH]; intros f.
  - reflexivity.
  - simpl. rewrite IH, append_assoc. destruct es1; reflexivity.
Qed.

(** ** QueryUpdate: what the two loops compute *)

Lemma selectStep_keeps (m : DbHelperModel.t) (column : DbColumn.t)
      (names : list string) (values : list JsValue) :
  QueryUpdate.selectStep m (names, values) column
  = if keeps m column
    then (names ++ [DbColumn.name column], values ++ [valueOf m column])
    else (names, values).
Proof.
  unfold QueryUpdate.selectStep, keeps, valueOf.
  destruct (DbHelperModel.__partialWithProjection m); reflexivity.
Qed.

Lemma selectColumns_acc (m : DbHelperModel.t) (cl : list DbColumn.t)
      (names : list string) (values : list JsValue) :
  fold_left (QueryUpdate.selectStep m) cl (names, values)
  = (names ++ map DbColumn.name (List.filter (keeps m) cl),
     values ++ map (valueOf m) (List.filter (keeps m) cl)).
Proof.
  revert names values. induction cl as [|c cl IH]; intros names values.
  - simpl. rewrite !app_nil_r. reflexivity.
  - cbn [fold_left List.filter]. rewrite selectStep_keeps.
    destruct (keeps m c).
    + rewrite IH. cbn [map]. rewrite <- !app_assoc. reflexivity.
    + apply IH.
Qed.

Lemma selectColumns_filter (m : DbHelperModel.t) (cl : list DbColumn.t) :
  QueryUpdate.selectColumns m cl
  = (map DbColumn.name (List.filter (keeps m) cl),
     map (valueOf m) (List.filter (keeps m) cl)).
Proof. unfold QueryUpdate.selectColumns. rewrite selectColumns_acc. reflexivity. Qed.

Lemma extend_where (w : option ClauseGroup.t) (c : Clause.t) (es : list Entry) :
  extend (Some (ClauseGroup.add (default ClauseGroup.new w) (ClauseGroup.ofClause c))) es
  = extend w (EntryClause c :: es).
Proof.
  destruct es as [|e' es]; unfold extend, ClauseGroup.add; simpl.
  - reflexivity.
  - rewrite <- app_assoc. reflexivity.
Qed.

(** The primary-key loop in closed form. *)
Lemma keyLoop_eq (cl : list DbColumn.t) (self : QueryUpdate.t) :
  fold_left QueryUpdate.keyStep cl self =
  {| QueryUpdate.model := QueryUpdate.model self;
     QueryUpdate.partial := QueryUpdate.partial self;
     QueryUpdate.whereClauses :=
       extend (QueryUpdate.whereClauses self)
         (map (fun column => EntryClause (keyClause (QueryUpdate.model self) column))
            (List.filter DbColumn.primaryKey cl)) |}.
Proof.
  revert self. induction cl as [|c cl IH]; intros self.
  - destruct self; reflexivity.
  - cbn [fold_left List.filter]. rewrite IH. unfold QueryUpdate.keyStep.
    destruct (DbColumn.primaryKey c); [|reflexivity].
    cbn [QueryUpdate.where_ QueryUpdate.model QueryUpdate.partial QueryUpdate.whereClauses map].
    f_equal.
    change (match QueryUpdate.whereClauses self with Some g => g | None => ClauseGroup.new end)
      with (default ClauseGroup.new (QueryUpdate.whereClauses self)).
    apply (extend_where (QueryUpdate.whereClauses self) (keyClause (QueryUpdate.model self) c)).
Qed.

(** The identity step in closed form: it touches the where group only. *)
Lemma addIdentity_eq (table : DbTable.t) (self : QueryUpdate.t) :
  QueryUpdate.addIdentity table self =
  {| QueryUpdate.model := QueryUpdate.model self;
     QueryUpdate.partial := QueryUpdate.partial self;
     QueryUpdate.whereClauses :=
       extend (QueryUpdate.whereClauses self)
         (identityEntries (QueryUpdate.model self) table) |}.
Proof.
  unfold QueryUpdate.addIdentity, identityEntries.
  destruct (truthy (DbHelperModel.rowid (QueryUpdate.model self))).
  - reflexivity.
  - apply keyLoop_eq.
Qed.

(** Without an identity clause the identity step does nothing. *)
Lemma addIdentity_none (table : DbTable.t) (self : QueryUpdate.t) :
  identityEntries (QueryUpdate.model self) table = [] ->
  QueryUpdate.addIdentity table self = self.
Proof.
  intros Hnil. rewrite addIdentity_eq, Hnil. destruct self; reflexivity.
Qed.

(** ** QueryUpdate: the shape of a built query *)

(** When the model is registered, [build] returns: the text is the SET
    part followed by the rendering of the where group as it stands after
    the identity step, and the parameters follow the same order. *)
Lemma build_registered (mm : ModelManager.t) (self : QueryUpdate.t) (table : DbTable.t) :
  ModelManager.getModel mm (QueryUpdate.model self) = Ok table ->
  QueryUpdate.build mm self =
  (Ok {| DbQuery.table := Some (DbTable.name table);
         DbQuery.type := Some "UPDATE";
         DbQuery.query :=
           setText (QueryUpdate.model self) table
           +:+ whereText (QueryUpdate.whereClauses (QueryUpdate.addIdentity table self));
         DbQuery.params :=
           setValues (QueryUpdate.model self) table
           ++ whereParams (QueryUpdate.whereClauses (QueryUpdate.addIdentity table self)) |},
   QueryUpdate.addIdentity table self).
Proof.
  intros Hget. unfold QueryUpdate.build. rewrite Hget.
  assert (Hmodel : QueryUpdate.model (QueryUpdate.addIdentity table self)
                   = QueryUpdate.model self) by (rewrite addIdentity_eq; reflexivity).
  rewrite Hmodel. unfold setText, setValues, setList.
  destruct (QueryUpdate.selectColumns (QueryUpdate.model self) (DbTable.columnList table))
    as [columnsToUpdate values].
  cbn [fst snd].
  destruct (QueryUpdate.whereClauses (QueryUpdate.addIdentity table self)) as [g|].
  - unfold DbQuery.append, DbQuery.addText, DbQuery.setParams, DbQuery.setType,
      DbQuery.setTable, DbQuery.new, whereText, whereParams, jsString, QueryUpdate.type.
    cbn [DbQuery.table DbQuery.type DbQuery.query DbQuery.params default].
    rewrite !append_nil_l, !append_assoc. reflexivity.
  - unfold DbQuery.addText, DbQuery.setParams, DbQuery.setType,
      DbQuery.setTable, DbQuery.new, whereText, whereParams, jsString, QueryUpdate.type.
    cbn [DbQuery.table DbQuery.type DbQuery.query DbQuery.params default].
    rewrite !append_nil_l, !append_assoc, append_nil_r, app_nil_r. reflexivity.
Qed.

(** [getModel] on a one-table registry. *)
Lemma getModel_registry (m : DbHelperModel.t) (table : DbTable.t) :
  ModelManager.getModel (registry (DbHelperModel.modelType m) table) m = Ok table.
Proof.
  unfold ModelManager.getModel, registry. cbn [ModelManager.tables].
  rewrite lookup_insert_eq. reflexivity.
Qed.

(** * The claims *)

(** ** Placeholders and parameters *)

(** C1 (the code departs from it). With the projection [[]] and the
    instance [{name: "", age: 0}] no column enters the SET list, yet
    [build] still emits the closing [ = (?) ]: the text holds one
    placeholder and the parameter array is empty. *)
Theorem build_empty_set_list_mismatch :
  exists q,
    returned (QueryUpdate.build persons (Update (person "" (Some [])) false)) = Some q
    /\ DbQuery.query q = "UPDATE person SET  = (?) "
    /\ DbQuery.params q = []
    /\ countPlaceholders (DbQuery.query q) = 1
    /\ length (DbQuery.params q) = 0.
Proof. eexists. split; [evaluate|]. repeat split. Qed.

(** ** Failure of the metadata lookup *)

(** C9. If [getModel] throws for the model of the builder, [build] throws
    the same error: no query is returned, and the builder is left as it
    was. *)
Theorem build_unregistered_throws (mm : ModelManager.t) (self : QueryUpdate.t) (e : Error) :
  ModelManager.getModel mm (QueryUpdate.model self) = Throw e ->
  QueryUpdate.build mm self = (Throw e, self)
  /\ returned (QueryUpdate.build mm self) = None.
Proof.
  intros Hget. unfold returned, QueryUpdate.build. rewrite Hget. split; reflexivity.
Qed.

Lemma build_unregistered_throws_witness :
  ModelManager.getModel persons (QueryUpdate.model (Update (todo None) false))
  = Throw (UnregisteredModel "Todo")
  /\ QueryUpdate.build persons (Update (todo None) false)
     = (Throw (UnregisteredModel "Todo"), Update (todo None) false)
  /\ returned (QueryUpdate.build persons (Update (todo None) false)) = None.
Proof.
  assert (H : ModelManager.getModel persons (QueryUpdate.model (Update (todo None) false))
              = Throw (UnregisteredModel "Todo")) by (vm_compute; reflexivity).
  split; [exact H|].
  exact (build_unregistered_throws persons (Update (todo None) false) _ H).
Defined.

(** ** The constructor argument [partial] *)

(** C10. [build] never reads [partial]: builders that differ in it only
    yield the same outcome, in particular [Update(model, true)] and
    [Update(model, false)] the same query. *)
Theorem build_ignores_partial (mm : ModelManager.t) (m : DbHelperModel.t) :
  fst (QueryUpdate.build mm (Update m true)) = fst (QueryUpdate.build mm (Update m false))
  /\ forall (w : option ClauseGroup.t) (p1 p2 : bool),
       fst (QueryUpdate.build mm
              {| QueryUpdate.model := m; QueryUpdate.partial := p1;
                 QueryUpdate.whereClauses := w |})
       = fst (QueryUpdate.build mm
                {| QueryUpdate.model := m; QueryUpdate.partial := p2;
                   QueryUpdate.whereClauses := w |}).
Proof.
  assert (H : forall w p1 p2,
    fst (QueryUpdate.build mm
           {| QueryUpdate.model := m; QueryUpdate.partial := p1;
              QueryUpdate.whereClauses := w |})
    = fst (QueryUpdate.build mm
             {| QueryUpdate.model := m; QueryUpdate.partial := p2;
                QueryUpdate.whereClauses := w |})).
  { intros w p1 p2.
    destruct (ModelManager.getModel mm m) as [table|e] eqn:Hget.
    - rewrite !(build_registered _ _ table) by exact Hget.
      rewrite !addIdentity_eq. reflexivity.
    - unfold QueryUpdate.build. cbn [QueryUpdate.model]. rewrite Hget. reflexivity. }
  split; [apply H | exact H].
Qed.

(** ** The todo example *)

(** C4 (as stated, fails). Built from [{title: "buy milk", done: false,
    id: 7}] with the single primary key [id], the query is not the one
    with two SET columns and three parameters. *)
Lemma todo_update_not_three_params :
  ~ (exists q,
       returned (QueryUpdate.build todos (Update (todo None) false)) = Some q
       /\ equivalentText (DbQuery.query q)
            "UPDATE todo SET title = (?), done = (?) WHERE id = (?)"
       /\ DbQuery.params q = [JsStr "buy milk"; JsBool false; JsNum 7]).
Proof.
  intros (q & Hq & _ & Hp). vm_compute in Hq.
  injection Hq as <-. vm_compute in Hp. discriminate Hp.
Qed.

(** C4 (amended). In full mode the primary-key column is part of the SET
    list like every other column: the text is equivalent to [UPDATE todo
    SET title = (?), done = (?), id = (?) WHERE id = (?)] and the
    parameters are ["buy milk", false, 7, 7], in that order. *)
Theorem todo_update_query :
  exists q,
    returned (QueryUpdate.build todos (Update (todo None) false)) = Some q
    /\ DbQuery.query q = "UPDATE todo SET title = (?), done = (?), id = (?)  WHERE id = (?)"
    /\ equivalentText (DbQuery.query q)
         "UPDATE todo SET title = (?), done = (?), id = (?) WHERE id = (?)"
    /\ DbQuery.params q = [JsStr "buy milk"; JsBool false; JsNum 7; JsNum 7].
Proof.
  eexists. split; [evaluate|].
  split; [reflexivity|]. split; [evaluate | reflexivity].
Qed.

(** ** Building twice *)

(** C5 (as stated, fails). The second [build] on the same builder finds
    the identity clause of the first one in the where group and adds it
    again: the two queries differ. *)
Lemma build_twice_differs :
  exists q1 q2,
    returned (QueryUpdate.build todos (Update (todo None) false)) = Some q1
    /\ returned (QueryUpdate.build todos
                   (snd (QueryUpdate.build todos (Update (todo None) false)))) = Some q2
    /\ DbQuery.params q1 = [JsStr "buy milk"; JsBool false; JsNum 7; JsNum 7]
    /\ DbQuery.params q2 = [JsStr "buy milk"; JsBool false; JsNum 7; JsNum 7; JsNum 7]
    /\ DbQuery.query q1 <> DbQuery.query q2.
Proof.
  eexists. eexists.
  split; [evaluate|]. split; [evaluate|].
  split; [reflexivity|]. split; [reflexivity|]. cbn [DbQuery.query]. discriminate.
Qed.

(** C5 (amended). When [build] has no identity clause to add (the model
    is not registered, or it has no truthy row identity and its table no
    column flagged primary-key), the builder is left as it was and a
    second [build] gives the outcome of the first. *)
Theorem build_twice_without_identity (mm : ModelManager.t) (self : QueryUpdate.t) :
  (forall table,
      ModelManager.getModel mm (QueryUpdate.model self) = Ok table ->
      truthy (DbHelperModel.rowid (QueryUpdate.model self)) = false
      /\ primaryKeys table = []) ->
  snd (QueryUpdate.build mm self) = self
  /\ QueryUpdate.build mm (snd (QueryUpdate.build mm self)) = QueryUpdate.build mm self.
Proof.
  intros Hnone.
  assert (Hsame : snd (QueryUpdate.build mm self) = self).
  { destruct (ModelManager.getModel mm (QueryUpdate.model self)) as [table|e] eqn:Hget.
    - rewrite (build_registered _ _ table Hget). cbn [snd].
      apply addIdentity_none. unfold identityEntries.
      destruct (Hnone table eq_refl) as [-> ->]. reflexivity.
    - unfold QueryUpdate.build. rewrite Hget. reflexivity. }
  split; [exact Hsame|]. rewrite Hsame. reflexivity.
Qed.

Lemma build_twice_without_identity_witness :
  snd (QueryUpdate.build persons (Update (person "x" None) false))
  = Update (person "x" None) false
  /\ QueryUpdate.build persons
       (snd (QueryUpdate.build persons (Update (person "x" None) false)))
     = QueryUpdate.build persons (Update (person "x" None) false).
Proof.
  apply (build_twice_without_identity persons (Update (person "x" None) false)).
  intros table Hget. vm_compute in Hget. injection Hget as <-.
  split; reflexivity.
Defined.

(** ** Row identity *)

(** C3 (as stated, fails). With the row identity 0 the test
    [if (this.model.__rowid)] is false: the WHERE clause is the one of the
    primary key and [rowid] does not occur in the text. *)
Lemma rowid_zero_uses_primary_key :
  exists q,
    returned (QueryUpdate.build todos (Update (todo (Some 0%Z)) false)) = Some q
    /\ DbQuery.query q = "UPDATE todo SET title = (?), done = (?), id = (?)  WHERE id = (?)"
    /\ DbQuery.params q = [JsStr "buy milk"; JsBool false; JsNum 7; JsNum 7]
    /\ contains "rowid" (DbQuery.query q) = false.
Proof.
  eexists. split; [evaluate|].
  split; [reflexivity|]. split; [reflexivity | evaluate].
Qed.

(** C3 (amended). When the row identity is set and is not 0, and the
    caller added no clause, the where group ends up with the single
    clause [rowid = (?)] bound to the row identity, whatever columns are
    flagged primary-key: the text is the SET part followed by [ WHERE
    rowid = (?)], and the row identity is the last parameter. *)
Theorem build_rowid_sole_predicate
        (mm : ModelManager.t) (self : QueryUpdate.t) (table : DbTable.t) (z : Z) :
  ModelManager.getModel mm (QueryUpdate.model self) = Ok table ->
  DbHelperModel.__rowid (QueryUpdate.model self) = Some z ->
  z <> 0%Z ->
  QueryUpdate.whereClauses self = None ->
  exists q,
    returned (QueryUpdate.build mm self) = Some q
    /\ whereEntries (snd (QueryUpdate.build mm self)) = [EntryClause (rowidClause z)]
    /\ DbQuery.query q = setText (QueryUpdate.model self) table +:+ " WHERE rowid = (?)"
    /\ DbQuery.params q = setValues (QueryUpdate.model self) table ++ [JsNum z].
Proof.
  intros Hget Hrow Hz Hw.
  rewrite (build_registered _ _ table Hget), addIdentity_eq, Hw.
  assert (Hid : identityEntries (QueryUpdate.model self) table
                = [EntryClause (rowidClause z)]).
  { unfold identityEntries, DbHelperModel.rowid. rewrite Hrow. cbn [truthy].
    destruct (Z.eqb_spec z 0) as [->|_]; [contradiction|]. reflexivity. }
  rewrite Hid. eexists. split; [reflexivity|]. repeat split.
Qed.

Lemma build_rowid_sole_predicate_witness :
  exists q,
    returned (QueryUpdate.build todos (Update (todo (Some 5%Z)) false)) = Some q
    /\ whereEntries (snd (QueryUpdate.build todos (Update (todo (Some 5%Z)) false)))
       = [EntryClause (rowidClause 5)]
    /\ DbQuery.query q = setText (todo (Some 5%Z)) todoTable +:+ " WHERE rowid = (?)"
    /\ DbQuery.params q = setValues (todo (Some 5%Z)) todoTable ++ [JsNum 5].
Proof.
  apply (build_rowid_sole_predicate todos (Update (todo (Some 5%Z)) false) todoTable 5).
  - vm_compute; reflexivity.
  - reflexivity.
  - lia.
  - reflexivity.
Defined.

(** ** The SET list *)

(** C6. With the projection [{"name"}] and the instance [{name: "x", age:
    0}] the SET list is [name] alone; without projection it is [name,
    age]. In general, with a projection a column is kept exactly when its
    name is in the projection or its value is truthy, and without one
    every column of the column list is kept, in declared order. *)
Theorem set_list_selection :
  (exists q,
      returned (QueryUpdate.build persons (Update (person "x" (Some ["name"])) true)) = Some q
      /\ setList (person "x" (Some ["name"])) personTable = ["name"]
      /\ DbQuery.query q = "UPDATE person SET name = (?) "
      /\ DbQuery.params q = [JsStr "x"])
  /\ (exists q,
      returned (QueryUpdate.build persons (Update (person "x" None) false)) = Some q
      /\ setList (person "x" None) personTable = ["name"; "age"]
      /\ DbQuery.query q = "UPDATE person SET name = (?), age = (?) "
      /\ DbQuery.params q = [JsStr "x"; JsNum 0])
  /\ (forall m table projection,
      DbHelperModel.__partialWithProjection m = Some projection ->
      let kept :=
        List.filter
          (fun column =>
             bool_decide (DbColumn.name column ∈ projection) || truthy (valueOf m column))
          (DbTable.columnList table) in
      setList m table = map DbColumn.name kept
      /\ setValues m table = map (valueOf m) kept)
  /\ (forall m table,
      DbHelperModel.__partialWithProjection m = None ->
      setList m table = map DbColumn.name (DbTable.columnList table)
      /\ setValues m table = map (valueOf m) (DbTable.columnList table)).
Proof.
  split; [|split; [|split]].
  - eexists. split; [evaluate|].
    split; [evaluate|]. split; reflexivity.
  - eexists. split; [evaluate|].
    split; [evaluate|]. split; reflexivity.
  - intros m table projection Hp kept. unfold setList, setValues.
    rewrite selectColumns_filter. cbn [fst snd].
    assert (Hext : List.filter (keeps m) (DbTable.columnList table) = kept).
    { apply List.filter_ext. intros c. unfold keeps, valueOf. rewrite Hp. f_equal.
      destruct (0 <=? indexOf (DbColumn.name c) projection)%Z eqn:Hi.
      - symmetry. apply bool_decide_eq_true. apply list_elem_of_In, indexOf_In, Hi.
      - symmetry. apply bool_decide_eq_false. intros Hin.
        apply list_elem_of_In, indexOf_In in Hin. congruence. }
    rewrite Hext. split; reflexivity.
  - intros m table Hp. unfold setList, setValues.
    rewrite selectColumns_filter. cbn [fst snd].
    assert (Hall : List.filter (keeps m) (DbTable.columnList table) = DbTable.columnList table).
    { induction (DbTable.columnList table) as [|c cl IH]; [reflexivity|].
      cbn [List.filter]. unfold keeps at 1. rewrite Hp, IH. reflexivity. }
    rewrite Hall. split; reflexivity.
Qed.

Lemma set_list_selection_witness :
  setList (person "x" (Some ["name"])) personTable
  = map DbColumn.name
      (List.filter
         (fun column =>
            bool_decide (DbColumn.name column ∈ ["name"])
            || truthy (valueOf (person "x" (Some ["name"])) column))
         (DbTable.columnList personTable))
  /\ setList (person "x" None) personTable = map DbColumn.name (DbTable.columnList personTable).
Proof.
  destruct set_list_selection as (_ & _ & Hpartial & Hfull).
  split.
  - exact (proj1 (Hpartial (person "x" (Some ["name"])) personTable ["name"] eq_refl)).
  - exact (proj1 (Hfull (person "x" None) personTable eq_refl)).
Defined.

(** ** Caller-added clauses *)

(** The rendering of a where group that received further entries. *)
Lemma extend_some_build (g : ClauseGroup.t) (es : list Entry) :
  whereText (extend (Some g) es)
  = " WHERE" +:+ DbQuery.query (ClauseGroup.build g)
    +:+ DbQuery.query
          (buildEntries (match ClauseGroup.entries g with [] => true | _ :: _ => false end) es)
  /\ whereParams (extend (Some g) es)
     = DbQuery.params (ClauseGroup.build g) ++ DbQuery.params (buildEntries true es).
Proof.
  destruct es as [|e es].
  - cbn [extend whereText whereParams buildEntries DbQuery.query DbQuery.params DbQuery.new].
    rewrite append_nil_r, app_nil_r. split; reflexivity.
  - cbn [extend whereText whereParams default]. unfold ClauseGroup.build.
    cbn [ClauseGroup.entries].
    rewrite buildEntries_app_query, buildEntries_app_params. split; reflexivity.
Qed.

(** C2 (as stated, fails). After [where(done = false)] on a model with
    row identity 5, the value of the caller's clause precedes the row
    identity in the parameters: the identity clause is added to the where
    group by [build], after the caller's. *)
Lemma caller_clause_precedes_identity :
  exists g q,
    QueryUpdate.whereClauses
      (QueryUpdate.where_ (Update (todo (Some 5%Z)) false) (ClauseGroup.ofClause notDone))
    = Some g
    /\ returned
         (QueryUpdate.build todos
            (QueryUpdate.where_ (Update (todo (Some 5%Z)) false) (ClauseGroup.ofClause notDone)))
       = Some q
    /\ DbQuery.query q
       = "UPDATE todo SET title = (?), done = (?), id = (?)  WHERE done = (?) AND rowid = (?)"
    /\ DbQuery.params q
       = [JsStr "buy milk"; JsBool false; JsNum 7; JsBool false; JsNum 5]
    /\ DbQuery.params q
       <> setValues (todo (Some 5%Z)) todoTable
          ++ identityValues (todo (Some 5%Z)) todoTable
          ++ DbQuery.params (ClauseGroup.build g).
Proof.
  eexists. eexists. split; [reflexivity|]. split; [evaluate|].
  split; [reflexivity|]. split; [reflexivity|].
  vm_compute. discriminate.
Qed.

(** C2 (amended). When the caller invoked [where] before [build], the
    parameters are the SET-list values (declared column order, after
    filtering), then the values of the caller's clauses, then the values
    of the synthesized identity clauses; the text lists the placeholders
    in the same order: SET part, [ WHERE], the caller's group, the
    identity clauses. *)
Theorem build_after_where
        (mm : ModelManager.t) (self : QueryUpdate.t) (clauses : ClauseGroup.input)
        (table : DbTable.t) :
  ModelManager.getModel mm (QueryUpdate.model self) = Ok table ->
  exists g q,
    QueryUpdate.whereClauses (QueryUpdate.where_ self clauses) = Some g
    /\ returned (QueryUpdate.build mm (QueryUpdate.where_ self clauses)) = Some q
    /\ DbQuery.params q
       = setValues (QueryUpdate.model self) table
         ++ DbQuery.params (ClauseGroup.build g)
         ++ identityValues (QueryUpdate.model self) table
    /\ DbQuery.query q
       = setText (QueryUpdate.model self) table
         +:+ " WHERE" +:+ DbQuery.query (ClauseGroup.build g)
         +:+ DbQuery.query
               (buildEntries
                  (match ClauseGroup.entries g with [] => true | _ :: _ => false end)
                  (identityEntries (QueryUpdate.model self) table)).
Proof.
  intros Hget.
  eexists. eexists. split; [reflexivity|].
  rewrite (build_registered _ (QueryUpdate.where_ self clauses) table)
    by (cbn [QueryUpdate.where_ QueryUpdate.model]; exact Hget).
  rewrite addIdentity_eq.
  cbn [QueryUpdate.where_ QueryUpdate.model QueryUpdate.whereClauses QueryUpdate.partial].
  split; [reflexivity|]. cbn [DbQuery.params DbQuery.query].
  match goal with
  | |- context [extend (Some ?g) ?es] => destruct (extend_some_build g es) as [Ht Hp]
  end.
  rewrite Ht, Hp. split; reflexivity.
Qed.

Lemma build_after_where_witness :
  exists g q,
    QueryUpdate.whereClauses
      (QueryUpdate.where_ (Update (todo (Some 5%Z)) false) (ClauseGroup.ofClause notDone))
    = Some g
    /\ returned
         (QueryUpdate.build todos
            (QueryUpdate.where_ (Update (todo (Some 5%Z)) false) (ClauseGroup.ofClause notDone)))
       = Some q
    /\ DbQuery.params q
       = setValues (todo (Some 5%Z)) todoTable
         ++ DbQuery.params (ClauseGroup.build g)
         ++ identityValues (todo (Some 5%Z)) todoTable
    /\ DbQuery.query q
       = setText (todo (Some 5%Z)) todoTable
         +:+ " WHERE" +:+ DbQuery.query (ClauseGroup.build g)
         +:+ DbQuery.query
               (buildEntries
                  (match ClauseGroup.entries g with [] => true | _ :: _ => false end)
                  (identityEntries (todo (Some 5%Z)) todoTable)).
Proof.
  apply (build_after_where todos (Update (todo (Some 5%Z)) false)
           (ClauseGroup.ofClause notDone) todoTable).
  vm_compute; reflexivity.
Defined.

(** ** Primary-key clauses *)

Lemma buildEntry_clause (f : bool) (c : Clause.t) :
  DbQuery.query (buildEntry f (EntryClause c))
  = leading f (Clause.connector c) +:+ Clause.text c
  /\ DbQuery.params (buildEntry f (EntryClause c)) = Clause.boundValues c.
Proof. split; reflexivity. Qed.

(** Equality clauses on the key columns render joined by AND. *)
Lemma keyEntries_query (m : DbHelperModel.t) (pks : list DbColumn.t) (f : bool) :
  DbQuery.query (buildEntries f (map (fun column => EntryClause (keyClause m column)) pks))
  = match pks with
    | [] => ""
    | _ :: _ =>
        leading f AND +:+ join " AND" (map (fun column => Clause.text (keyClause m column)) pks)
    end.
Proof.
  revert f. induction pks as [|c rest IH]; intros f; [reflexivity|].
  cbn [map buildEntries DbQuery.append DbQuery.query].
  rewrite IH. destruct (buildEntry_clause f (keyClause m c)) as [-> _].
  cbn [keyClause Clause.connector].
  destruct rest as [|r rs].
  - cbn [map join String.concat]. rewrite append_nil_r. reflexivity.
  - cbn [map]. unfold join. cbn [String.concat]. rewrite append_assoc. reflexivity.
Qed.

Lemma keyEntries_params (m : DbHelperModel.t) (pks : list DbColumn.t) (f : bool) :
  DbQuery.params (buildEntries f (map (fun column => EntryClause (keyClause m column)) pks))
  = flat_map (fun column => Clause.boundValues (keyClause m column)) pks.
Proof.
  revert f. induction pks as [|c rest IH]; intros f; [reflexivity|].
  cbn [map buildEntries DbQuery.append DbQuery.params flat_map].
  rewrite IH. reflexivity.
Qed.

(** On a scalar the equality clause is [<column> = (?)], bound to the
    value. *)
Lemma keyClause_scalar (m : DbHelperModel.t) (column : DbColumn.t) :
  isScalar (valueOf m column) = true ->
  Clause.text (keyClause m column) = " " +:+ DbColumn.name column +:+ " = (?)"
  /\ Clause.boundValues (keyClause m column) = [valueOf m column].
Proof.
  unfold Clause.text, Clause.boundValues. cbn [keyClause Clause.value Clause.key Clause.operator].
  destruct (valueOf m column); intros Hs; try discriminate Hs; split; reflexivity.
Qed.

(** The where group that the key loop creates, rendered. *)
Lemma extend_none_keys (m : DbHelperModel.t) (pks : list DbColumn.t) :
  whereText (extend None (map (fun column => EntryClause (keyClause m column)) pks))
  = match pks with
    | [] => ""
    | _ :: _ =>
        " WHERE" +:+ join " AND" (map (fun column => Clause.text (keyClause m column)) pks)
    end
  /\ whereParams (extend None (map (fun column => EntryClause (keyClause m column)) pks))
     = flat_map (fun column => Clause.boundValues (keyClause m column)) pks.
Proof.
  destruct pks as [|c rest]; [split; reflexivity|].
  pose proof (keyEntries_query m (c :: rest) true) as Hq.
  pose proof (keyEntries_params m (c :: rest) true) as Hp.
  split; [exact (f_equal (String.append " WHERE") Hq) | exact Hp].
Qed.

(** C7. Without a truthy row identity and without caller-added clauses,
    the where group ends up with exactly one equality clause per column
    flagged primary-key, bound to the value of its field, in declared
    order; the clauses render joined by AND after [ WHERE], and when the
    key values are scalars the text is [<key> = (?)] for each of them and
    the key values follow the SET-list values in the parameters. *)
Theorem build_primary_key_where
        (mm : ModelManager.t) (self : QueryUpdate.t) (table : DbTable.t) :
  ModelManager.getModel mm (QueryUpdate.model self) = Ok table ->
  truthy (DbHelperModel.rowid (QueryUpdate.model self)) = false ->
  QueryUpdate.whereClauses self = None ->
  exists q,
    returned (QueryUpdate.build mm self) = Some q
    /\ whereEntries (snd (QueryUpdate.build mm self))
       = map (fun column => EntryClause (keyClause (QueryUpdate.model self) column))
           (primaryKeys table)
    /\ DbQuery.query q
       = setText (QueryUpdate.model self) table
         +:+ match primaryKeys table with
             | [] => ""
             | _ :: _ =>
                 " WHERE"
                 +:+ join " AND"
                       (map (fun column => Clause.text (keyClause (QueryUpdate.model self) column))
                          (primaryKeys table))
             end
    /\ DbQuery.params q
       = setValues (QueryUpdate.model self) table
         ++ flat_map (fun column => Clause.boundValues (keyClause (QueryUpdate.model self) column))
              (primaryKeys table)
    /\ ((forall column,
            In column (primaryKeys table) ->
            isScalar (valueOf (QueryUpdate.model self) column) = true) ->
        DbQuery.query q
        = setText (QueryUpdate.model self) table
          +:+ match primaryKeys table with
              | [] => ""
              | _ :: _ =>
                  " WHERE"
                  +:+ join " AND"
                        (map (fun column => " " +:+ DbColumn.name column +:+ " = (?)")
                           (primaryKeys table))
              end
        /\ DbQuery.params q
           = setValues (QueryUpdate.model self) table
             ++ map (valueOf (QueryUpdate.model self)) (primaryKeys table)).
Proof.
  intros Hget Hrow Hw.
  rewrite (build_registered _ _ table Hget), addIdentity_eq, Hw.
  unfold identityEntries. rewrite Hrow.
  set (m := QueryUpdate.model self). set (pks := primaryKeys table).
  destruct (extend_none_keys m pks) as [Htext Hparams].
  eexists. split; [reflexivity|].
  cbn [snd DbQuery.query DbQuery.params QueryUpdate.whereClauses].
  split.
  { unfold whereEntries. cbn [QueryUpdate.whereClauses].
    destruct pks; reflexivity. }
  split; [rewrite Htext; reflexivity|].
  split; [rewrite Hparams; reflexivity|].
  intros Hscalar. rewrite Htext, Hparams. split.
  - f_equal. destruct pks as [|c rest] eqn:Hpks; [reflexivity|]. rewrite <- Hpks in *.
    f_equal. f_equal. apply map_ext_in. intros column Hin.
    apply keyClause_scalar, Hscalar, Hin.
  - f_equal. clear Htext Hparams. induction pks as [|c rest IH]; [reflexivity|].
    cbn [flat_map map].
    destruct (keyClause_scalar m c (Hscalar c (or_introl eq_refl))) as [_ ->].
    rewrite IH; [reflexivity|]. intros column Hin. apply Hscalar. right. exact Hin.
Qed.

Lemma build_primary_key_where_witness :
  exists q,
    returned (QueryUpdate.build todos (Update (todo None) false)) = Some q
    /\ whereEntries (snd (QueryUpdate.build todos (Update (todo None) false)))
       = [EntryClause (keyClause (todo None) (column "id" true))]
    /\ DbQuery.query q
       = "UPDATE todo SET title = (?), done = (?), id = (?)  WHERE id = (?)"
    /\ DbQuery.params q = [JsStr "buy milk"; JsBool false; JsNum 7; JsNum 7].
Proof.
  destruct (build_primary_key_where todos (Update (todo None) false) todoTable)
    as (q & Hq & Hentries & _ & _ & Hscalar).
  - vm_compute; reflexivity.
  - reflexivity.
  - reflexivity.
  - exists q. split; [exact Hq|]. split; [exact Hentries|].
    destruct Hscalar as [Htext Hparams].
    + intros c [<-|[]]. vm_compute. reflexivity.
    + split; [rewrite Htext | rewrite Hparams]; vm_compute; reflexivity.
Defined.

(** ** Absence of the WHERE keyword *)

Lemma contains_false (w s : string) :
  contains w s = false <-> occurrences w s = 0.
Proof.
  unfold contains. destruct (Nat.eqb_spec (occurrences w s) 0) as [H|H]; simpl.
  - tauto.
  - split; [discriminate | contradiction].
Qed.

Lemma occurrences_cons_zero (w : string) (a : ascii) (s : string) :
  occurrences w (String a s) = 0
  <-> isPrefix w (String a s) = false /\ occurrences w s = 0.
Proof.
  cbn [occurrences]. destruct (isPrefix w (String a s)).
  - split; [discriminate | intros [H _]; discriminate H].
  - simpl. tauto.
Qed.

(** The keyword has its only space in front: an occurrence that starts
    before a space and reaches it ends there. *)
Lemma keyword_prefix_across_space (a : ascii) (x t : string) :
  isPrefix whereKeyword (String a x +:+ " " +:+ t) = true ->
  isPrefix whereKeyword (String a x +:+ " ") = true.
Proof.
  unfold whereKeyword.
  destruct x as [|a1 [|a2 [|a3 [|a4 [|a5 x]]]]];
    rewrite ?append_cons, ?append_nil_l; cbn [isPrefix];
    rewrite ?andb_false_r; try discriminate; try (cbn; rewrite ?andb_false_r; discriminate).
  rewrite !andb_true_r. intros H. exact H.
Qed.

(** No occurrence of the keyword on either side of a space means none in
    the whole text. *)
Lemma keyword_split_at_space (s t : string) :
  occurrences whereKeyword (s +:+ " ") = 0 ->
  occurrences whereKeyword (" " +:+ t) = 0 ->
  occurrences whereKeyword (s +:+ " " +:+ t) = 0.
Proof.
  intros Hs Ht. induction s as [|a s IH].
  - exact Ht.
  - rewrite append_cons in Hs. apply occurrences_cons_zero in Hs. destruct Hs as [Hp Hs].
    rewrite append_cons. apply occurrences_cons_zero. split.
    + destruct (isPrefix whereKeyword (String a (s +:+ " " +:+ t))) eqn:Hpre; [|reflexivity].
      rewrite <- append_cons in Hpre. apply keyword_prefix_across_space in Hpre.
      rewrite append_cons in Hpre. congruence.
    + apply IH, Hs.
Qed.

Lemma join_cons (sep a b : string) (l : list string) :
  join sep (a :: b :: l) = a +:+ sep +:+ join sep (b :: l).
Proof. reflexivity. Qed.

Lemma showsKeyword_false (n : string) :
  showsKeyword n = false -> occurrences whereKeyword ((" " +:+ n) +:+ " ") = 0.
Proof.
  unfold showsKeyword. intros H. apply contains_false in H.
  rewrite append_assoc. exact H.
Qed.

(** The SET list of clean names, with its closing placeholder, does not
    contain the keyword. *)
Lemma keyword_not_in_set_list (names : list string) :
  (forall n, In n names -> showsKeyword n = false) ->
  occurrences whereKeyword (" " +:+ join " = (?), " names +:+ " = (?) ") = 0.
Proof.
  destruct names as [|n rest]; [intros _; vm_compute; reflexivity|].
  revert n. induction rest as [|n2 rest IH]; intros n Hclean.
  - unfold join. cbn [String.concat].
    replace (" " +:+ n +:+ " = (?) ") with ((" " +:+ n) +:+ " " +:+ "= (?) ")
      by (rewrite !append_assoc; reflexivity).
    apply keyword_split_at_space.
    + apply showsKeyword_false, Hclean. left. reflexivity.
    + evaluate.
  - rewrite join_cons.
    replace (" " +:+ (n +:+ " = (?), " +:+ join " = (?), " (n2 :: rest)) +:+ " = (?) ")
      with ((" " +:+ n) +:+ " "
            +:+ ("= (?)," +:+ " " +:+ join " = (?), " (n2 :: rest) +:+ " = (?) "))
      by (rewrite !append_assoc; reflexivity).
    apply keyword_split_at_space.
    + apply showsKeyword_false, Hclean. left. reflexivity.
    + change (" " +:+ "= (?)," +:+ " " +:+ join " = (?), " (n2 :: rest) +:+ " = (?) ")
        with (" = (?)," +:+ " " +:+ join " = (?), " (n2 :: rest) +:+ " = (?) ").
      apply keyword_split_at_space; [evaluate|].
      apply IH. intros n' Hin. apply Hclean. right. exact Hin.
Qed.

(** The SET part of a query over clean identifiers does not contain the
    keyword. *)
Lemma keyword_not_in_set_text (m : DbHelperModel.t) (table : DbTable.t) :
  showsKeyword (DbTable.name table) = false ->
  (forall column, In column (DbTable.columnList table) ->
                  showsKeyword (DbColumn.name column) = false) ->
  contains whereKeyword (setText m table) = false.
Proof.
  intros Htable Hcolumns. apply contains_false. unfold setText.
  change ("UPDATE " +:+ DbTable.name table +:+ " SET "
          +:+ join " = (?), " (setList m table) +:+ " = (?) ")
    with ("UPDATE" +:+ " " +:+ DbTable.name table +:+ " SET "
          +:+ join " = (?), " (setList m table) +:+ " = (?) ").
  apply keyword_split_at_space; [evaluate|].
  replace (" " +:+ DbTable.name table +:+ " SET "
           +:+ join " = (?), " (setList m table) +:+ " = (?) ")
    with ((" " +:+ DbTable.name table) +:+ " "
          +:+ ("SET " +:+ join " = (?), " (setList m table) +:+ " = (?) "))
    by (rewrite !append_assoc; reflexivity).
  apply keyword_split_at_space; [apply showsKeyword_false, Htable|].
  change (" " +:+ "SET " +:+ join " = (?), " (setList m table) +:+ " = (?) ")
    with (" SET" +:+ " " +:+ join " = (?), " (setList m table) +:+ " = (?) ").
  apply keyword_split_at_space; [evaluate|].
  apply keyword_not_in_set_list. intros n Hin.
  unfold setList in Hin. rewrite selectColumns_filter in Hin. cbn [fst] in Hin.
  apply in_map_iff in Hin. destruct Hin as (c & <- & Hc).
  apply filter_In in Hc. apply Hcolumns, Hc.
Qed.

(** ** No identity and no caller-added clause *)

(** X14. On a builder on which [where] was never called, without a
    truthy row identity and without a column flagged primary-key, [build]
    returns a query and leaves the builder without where group; the text
    is the SET part with nothing after it, and it does not contain
    [ WHERE] as long as the table and column names do not show it
    themselves. *)
Theorem build_no_where
        (mm : ModelManager.t) (self : QueryUpdate.t) (table : DbTable.t) :
  ModelManager.getModel mm (QueryUpdate.model self) = Ok table ->
  truthy (DbHelperModel.rowid (QueryUpdate.model self)) = false ->
  primaryKeys table = [] ->
  QueryUpdate.whereClauses self = None ->
  exists q,
    QueryUpdate.build mm self = (Ok q, self)
    /\ DbQuery.query q = setText (QueryUpdate.model self) table
    /\ DbQuery.params q = setValues (QueryUpdate.model self) table
    /\ (showsKeyword (DbTable.name table) = false ->
        (forall column, In column (DbTable.columnList table) ->
                        showsKeyword (DbColumn.name column) = false) ->
        contains whereKeyword (DbQuery.query q) = false).
Proof.
  intros Hget Hrow Hpk Hw.
  assert (Hid : identityEntries (QueryUpdate.model self) table = []).
  { unfold identityEntries. rewrite Hrow, Hpk. reflexivity. }
  rewrite (build_registered _ _ table Hget), (addIdentity_none _ _ Hid), Hw.
  cbn [whereText whereParams]. rewrite append_nil_r, app_nil_r.
  eexists. split; [reflexivity|]. cbn [DbQuery.query DbQuery.params].
  split; [reflexivity|]. split; [reflexivity|].
  apply keyword_not_in_set_text.
Qed.

Lemma build_no_where_witness :
  exists q,
    QueryUpdate.build persons (Update (person "x" None) false)
    = (Ok q, Update (person "x" None) false)
    /\ DbQuery.query q = "UPDATE person SET name = (?), age = (?) "
    /\ DbQuery.params q = [JsStr "x"; JsNum 0]
    /\ contains whereKeyword (DbQuery.query q) = false.
Proof.
  destruct (build_no_where persons (Update (person "x" None) false) personTable)
    as (q & Hq & Htext & Hparams & Hclean).
  - vm_compute; reflexivity.
  - reflexivity.
  - reflexivity.
  - reflexivity.
  - exists q. split; [exact Hq|].
    split; [rewrite Htext; vm_compute; reflexivity|].
    split; [rewrite Hparams; vm_compute; reflexivity|].
    apply Hclean.
    + vm_compute; reflexivity.
    + intros c [<-|[<-|[]]]; vm_compute; reflexivity.
Defined.

(** C8 (the code departs from it). [where] creates the where group
    whatever its argument holds, and [build] emits the keyword as soon as
    the group exists: after [where([])] or [where({})], on an instance
    without row identity and a table without primary key, the caller has
    added no clause, yet the text ends in the bare keyword [ WHERE]. *)
Theorem empty_where_emits_keyword :
  (whereEntries
     (QueryUpdate.where_ (Update (person "x" None) false) (ClauseGroup.ofClauses [])) = []
   /\ exists q,
       returned (QueryUpdate.build persons
                   (QueryUpdate.where_ (Update (person "x" None) false)
                      (ClauseGroup.ofClauses [])))
       = Some q
       /\ DbQuery.query q = "UPDATE person SET name = (?), age = (?)  WHERE"
       /\ DbQuery.params q = [JsStr "x"; JsNum 0]
       /\ contains whereKeyword (DbQuery.query q) = true)
  /\ (whereEntries
        (QueryUpdate.where_ (Update (person "x" None) false) (ClauseGroup.ofObject [])) = []
      /\ exists q,
          returned (QueryUpdate.build persons
                      (QueryUpdate.where_ (Update (person "x" None) false)
                         (ClauseGroup.ofObject [])))
          = Some q
          /\ DbQuery.query q = "UPDATE person SET name = (?), age = (?)  WHERE"
          /\ DbQuery.params q = [JsStr "x"; JsNum 0]
          /\ contains whereKeyword (DbQuery.query q) = true).
Proof.
  split; (split; [reflexivity|]); eexists; (split; [evaluate|]);
    (split; [reflexivity|]); (split; [reflexivity | evaluate]).
Qed.

(** ** Placeholders against parameters *)

Lemma buildEntry_group (f : bool) (conn : Connector) (inner : list Entry) :
  buildEntry f (EntryGroup conn inner)
  = DbQuery.addText
      (DbQuery.append (DbQuery.addText DbQuery.new (leading f conn +:+ " ("))
         (buildEntries true inner))
      " )".
Proof. reflexivity. Qed.

Lemma cleanText_zero (s : string) : cleanText s = true <-> countQuestionMarks s = 0.
Proof. unfold cleanText. apply Nat.eqb_eq. Qed.

Lemma leading_clean (f : bool) (conn : Connector) :
  countQuestionMarks (leading f conn) = 0.
Proof. destruct f, conn; reflexivity. Qed.

Lemma membership_list_marks (l : list JsValue) :
  countQuestionMarks (join ", " (map (fun _ => "?") l)) = length l.
Proof.
  destruct l as [|x l]; [reflexivity|]. revert x.
  induction l as [|y l IH]; intros x; [reflexivity|].
  cbn [map] in *. rewrite join_cons, !countQuestionMarks_append, (IH y). reflexivity.
Qed.

(** A clause over a clean key and comparator has as many question marks
    as bound values. *)
Lemma clause_marks (c : Clause.t) :
  cleanClause c = true ->
  countQuestionMarks (Clause.text c) = length (Clause.boundValues c).
Proof.
  unfold cleanClause. intros Hc. apply andb_true_iff in Hc. destruct Hc as [Hk Ho].
  apply cleanText_zero in Hk. apply cleanText_zero in Ho.
  unfold Clause.text, Clause.boundValues.
  destruct (Clause.value c);
    rewrite !countQuestionMarks_append, ?membership_list_marks, Hk, ?Ho; simpl; lia.
Qed.

Lemma entries_marks_from_each (es : list Entry) :
  Forall (fun e => forall f,
              countQuestionMarks (DbQuery.query (buildEntry f e))
              = length (DbQuery.params (buildEntry f e))) es ->
  forall f,
    countQuestionMarks (DbQuery.query (buildEntries f es))
    = length (DbQuery.params (buildEntries f es)).
Proof.
  induction 1 as [|e es He _ IH]; intros f; [reflexivity|].
  cbn [buildEntries DbQuery.append DbQuery.query DbQuery.params].
  rewrite countQuestionMarks_append, length_app, He, IH. reflexivity.
Qed.

(** Rendering a clean entry gives as many question marks as parameters. *)
Lemma entry_marks (e : Entry) :
  cleanEntry e = true ->
  forall f,
    countQuestionMarks (DbQuery.query (buildEntry f e))
    = length (DbQuery.params (buildEntry f e)).
Proof.
  induction e as [c|conn inner IH] using Entry_nested_ind; intros Hclean f.
  - destruct (buildEntry_clause f c) as [-> ->].
    rewrite countQuestionMarks_append, leading_clean. apply clause_marks, Hclean.
  - rewrite buildEntry_group.
    cbn [DbQuery.addText DbQuery.append DbQuery.query DbQuery.params DbQuery.new].
    rewrite !countQuestionMarks_append, leading_clean. cbn [app].
    cbn [cleanEntry] in Hclean. rewrite forallb_forall in Hclean.
    rewrite (entries_marks_from_each inner); [cbn; lia|].
    apply List.Forall_forall. intros e He. rewrite List.Forall_forall in IH.
    apply IH; [exact He | apply Hclean, He].
Qed.

Lemma entries_marks (es : list Entry) (f : bool) :
  forallb cleanEntry es = true ->
  countQuestionMarks (DbQuery.query (buildEntries f es))
  = length (DbQuery.params (buildEntries f es)).
Proof.
  intros Hclean. apply entries_marks_from_each. apply List.Forall_forall.
  intros e He. apply entry_marks. rewrite forallb_forall in Hclean. apply Hclean, He.
Qed.

Lemma extend_entries (w : option ClauseGroup.t) (es : list Entry) :
  groupEntries (extend w es) = groupEntries w ++ es.
Proof.
  destruct es as [|e es].
  - cbn [extend]. rewrite app_nil_r. reflexivity.
  - destruct w; reflexivity.
Qed.

Lemma where_marks (w : option ClauseGroup.t) :
  forallb cleanEntry (groupEntries w) = true ->
  countQuestionMarks (whereText w) = length (whereParams w).
Proof.
  destruct w as [g|]; [|reflexivity]. cbn [groupEntries whereText whereParams].
  intros Hclean. rewrite countQuestionMarks_append. unfold ClauseGroup.build.
  rewrite (entries_marks _ true Hclean). reflexivity.
Qed.

Lemma join_marks (names : list string) :
  forallb cleanText names = true ->
  countQuestionMarks (join " = (?), " names) = Nat.pred (length names).
Proof.
  destruct names as [|n rest]; [reflexivity|]. revert n.
  induction rest as [|n2 rest IH]; intros n Hclean.
  - cbn [forallb] in Hclean. apply andb_true_iff in Hclean. destruct Hclean as [Hn _].
    apply cleanText_zero in Hn. exact Hn.
  - cbn [forallb] in Hclean. apply andb_true_iff in Hclean. destruct Hclean as [Hn Hrest].
    apply cleanText_zero in Hn.
    rewrite join_cons, !countQuestionMarks_append, Hn, (IH n2 Hrest). reflexivity.
Qed.

Lemma setList_clean (m : DbHelperModel.t) (table : DbTable.t) :
  cleanTable table = true -> forallb cleanText (setList m table) = true.
Proof.
  unfold cleanTable, setList. intros Hclean. apply andb_true_iff in Hclean.
  destruct Hclean as [_ Hcolumns]. rewrite selectColumns_filter. cbn [fst].
  induction (DbTable.columnList table) as [|c cl IH]; [reflexivity|].
  cbn [forallb] in Hcolumns. apply andb_true_iff in Hcolumns. destruct Hcolumns as [Hc Hcl].
  cbn [List.filter]. destruct (keeps m c); [|exact (IH Hcl)].
  cbn [map forallb]. rewrite Hc, (IH Hcl). reflexivity.
Qed.

Lemma setValues_length (m : DbHelperModel.t) (table : DbTable.t) :
  length (setValues m table) = length (setList m table).
Proof.
  unfold setValues, setList. rewrite selectColumns_filter. cbn [fst snd].
  rewrite !length_map. reflexivity.
Qed.

(** The SET part holds one question mark per column of the SET list, and
    one all the same when the list is empty. *)
Lemma set_text_marks (m : DbHelperModel.t) (table : DbTable.t) :
  cleanTable table = true ->
  countQuestionMarks (setText m table)
  = length (setValues m table) + match setList m table with [] => 1 | _ :: _ => 0 end.
Proof.
  intros Hclean. pose proof (setList_clean m table Hclean) as Hnames.
  unfold cleanTable in Hclean. apply andb_true_iff in Hclean. destruct Hclean as [Hname _].
  apply cleanText_zero in Hname.
  unfold setText. rewrite !countQuestionMarks_append, Hname, (join_marks _ Hnames).
  rewrite setValues_length. destruct (setList m table); simpl; lia.
Qed.

Lemma identityEntries_clean (m : DbHelperModel.t) (table : DbTable.t) :
  cleanTable table = true -> forallb cleanEntry (identityEntries m table) = true.
Proof.
  unfold cleanTable, identityEntries, primaryKeys. intros Hclean.
  apply andb_true_iff in Hclean. destruct Hclean as [_ Hcolumns].
  destruct (truthy (DbHelperModel.rowid m)); [reflexivity|].
  induction (DbTable.columnList table) as [|c cl IH]; [reflexivity|].
  cbn [forallb] in Hcolumns. apply andb_true_iff in Hcolumns. destruct Hcolumns as [Hc Hcl].
  cbn [List.filter]. destruct (DbColumn.primaryKey c); [|exact (IH Hcl)].
  cbn [map forallb cleanEntry]. rewrite (IH Hcl), andb_true_r.
  unfold cleanClause. cbn [keyClause Clause.key Clause.operator]. rewrite Hc. reflexivity.
Qed.

(** X11. The invariant of C1 away from the empty SET list: over
    identifiers and caller-added clauses without question mark of their
    own, the text of a built query holds as many question marks as there
    are parameters, plus the one that [build] emits for an empty SET
    list. *)
Theorem placeholders_against_params
        (mm : ModelManager.t) (self : QueryUpdate.t) (table : DbTable.t) (q : DbQuery.t) :
  ModelManager.getModel mm (QueryUpdate.model self) = Ok table ->
  cleanTable table = true ->
  forallb cleanEntry (whereEntries self) = true ->
  returned (QueryUpdate.build mm self) = Some q ->
  countQuestionMarks (DbQuery.query q)
  = length (DbQuery.params q)
    + match setList (QueryUpdate.model self) table with [] => 1 | _ :: _ => 0 end.
Proof.
  intros Hget Htable Hwhere Hq.
  rewrite (build_registered _ _ table Hget), addIdentity_eq in Hq.
  cbn [returned fst QueryUpdate.whereClauses] in Hq. injection Hq as <-.
  cbn [DbQuery.query DbQuery.params].
  rewrite countQuestionMarks_append, length_app, (set_text_marks _ _ Htable).
  rewrite where_marks; [lia|].
  rewrite extend_entries, forallb_app. unfold whereEntries in Hwhere.
  rewrite Hwhere, (identityEntries_clean _ _ Htable). reflexivity.
Qed.

(** ** The todo example under any metadata *)

Lemma todo_value_scalar (rowid : option Z) (column : DbColumn.t) :
  isScalar (valueOf (todo rowid) column) = true.
Proof.
  unfold valueOf, DbHelperModel.get.
  destruct (String.eqb (DbColumn.field column) "__rowid");
    [destruct rowid; reflexivity|].
  destruct (String.eqb (DbColumn.field column) "__partialWithProjection"); [reflexivity|].
  unfold todo. cbn [DbHelperModel.fields DbHelperModel.inherited].
  destruct (_ !! DbColumn.field column) as [v|] eqn:Hv.
  - repeat (apply lookup_insert_Some in Hv; destruct Hv as [[_ <-]|[_ Hv]]; [reflexivity|]).
    rewrite lookup_empty in Hv. discriminate Hv.
  - clear Hv. destruct (modelPrototype !! DbColumn.field column) as [v|] eqn:Hi; [|reflexivity].
    cbn [default]. unfold modelPrototype in Hi.
    repeat (apply lookup_insert_Some in Hi; destruct Hi as [[_ <-]|[_ Hi]]; [reflexivity|]).
    rewrite lookup_empty in Hi. discriminate Hi.
Qed.

(** The parameters of the todo update, whatever the registered metadata:
    one value per column, then one per column flagged primary-key. *)
Lemma todo_params (table : DbTable.t) (q : DbQuery.t) :
  returned (QueryUpdate.build (registry "Todo" table) (Update (todo None) false)) = Some q ->
  DbQuery.params q
  = map (valueOf (todo None)) (DbTable.columnList table)
    ++ map (valueOf (todo None)) (primaryKeys table).
Proof.
  intros Hq.
  rewrite (build_registered (registry "Todo" table) (Update (todo None) false) table
             (getModel_registry (todo None) table)) in Hq.
  rewrite addIdentity_eq in Hq. cbn [returned fst QueryUpdate.whereClauses] in Hq.
  injection Hq as <-. cbn [DbQuery.params Update QueryUpdate.new QueryUpdate.model
                             QueryUpdate.whereClauses].
  unfold identityEntries. cbn [DbHelperModel.rowid DbHelperModel.__rowid todo truthy].
  fold (todo None).
  destruct (extend_none_keys (todo None) (primaryKeys table)) as [_ ->].
  f_equal.
  - unfold setValues. rewrite selectColumns_filter. cbn [snd]. f_equal.
    induction (DbTable.columnList table) as [|c cl IH]; [reflexivity|].
    cbn [List.filter]. unfold keeps at 1. cbn [DbHelperModel.__partialWithProjection todo].
    rewrite IH. reflexivity.
  - induction (primaryKeys table) as [|c pks IH]; [reflexivity|].
    cbn [flat_map map].
    destruct (keyClause_scalar (todo None) c (todo_value_scalar None c)) as [_ ->].
    rewrite IH. reflexivity.
Qed.

(** No metadata makes the todo update bind exactly ["buy milk", false, 7]
    and have a WHERE clause: with these three parameters no column is
    flagged primary-key. *)
Lemma todo_three_params_no_key (table : DbTable.t) (q : DbQuery.t) :
  returned (QueryUpdate.build (registry "Todo" table) (Update (todo None) false)) = Some q ->
  DbQuery.params q = [JsStr "buy milk"; JsBool false; JsNum 7] ->
  primaryKeys table = [].
Proof.
  intros Hq Hp. rewrite (todo_params table q Hq) in Hp. unfold primaryKeys in *.
  destruct (DbTable.columnList table) as [|c1 [|c2 [|c3 [|c4 cl]]]];
    cbn [List.filter map app] in *;
    repeat match goal with
           | |- context [DbColumn.primaryKey ?c] => destruct (DbColumn.primaryKey c)
           | H : context [DbColumn.primaryKey ?c] |- _ => destruct (DbColumn.primaryKey c)
           end;
    cbn [List.filter map app] in *;
    try reflexivity; try discriminate Hp;
    injection Hp; intros; congruence.
Qed.

(** * Further properties of the builder *)

(** ** What [build] does to the builder *)

Lemma whereParams_entries (w : option ClauseGroup.t) :
  whereParams w = DbQuery.params (buildEntries true (groupEntries w)).
Proof. destruct w; reflexivity. Qed.

(** The builder after [build], whatever the outcome. *)
Lemma build_builder (mm : ModelManager.t) (self : QueryUpdate.t) :
  snd (QueryUpdate.build mm self)
  = match ModelManager.getModel mm (QueryUpdate.model self) with
    | Ok table => QueryUpdate.addIdentity table self
    | Throw _ => self
    end.
Proof.
  destruct (ModelManager.getModel mm (QueryUpdate.model self)) as [table|e] eqn:Hget.
  - rewrite (build_registered _ _ table Hget). reflexivity.
  - unfold QueryUpdate.build. rewrite Hget. reflexivity.
Qed.

(** The parameters of a built query, for any builder: SET values, the
    values of the clauses already in the where group, the identity
    values. *)
Lemma build_params (mm : ModelManager.t) (self : QueryUpdate.t) (table : DbTable.t)
      (q : DbQuery.t) :
  ModelManager.getModel mm (QueryUpdate.model self) = Ok table ->
  returned (QueryUpdate.build mm self) = Some q ->
  DbQuery.params q
  = setValues (QueryUpdate.model self) table
    ++ DbQuery.params (buildEntries true (whereEntries self))
    ++ identityValues (QueryUpdate.model self) table.
Proof.
  intros Hget Hq. rewrite (build_registered _ _ table Hget), addIdentity_eq in Hq.
  cbn [returned fst QueryUpdate.whereClauses] in Hq. injection Hq as <-.
  cbn [DbQuery.params]. rewrite whereParams_entries, extend_entries, buildEntries_app_params.
  reflexivity.
Qed.

(** X4. [build] never touches the model or the [partial] flag of the
    builder, and never drops or reorders a clause of its where group: the
    entries it finds stay in front, followed by the identity clauses when
    the model is registered and by nothing when the lookup throws. *)
Theorem build_keeps_builder (mm : ModelManager.t) (self : QueryUpdate.t) :
  QueryUpdate.model (snd (QueryUpdate.build mm self)) = QueryUpdate.model self
  /\ QueryUpdate.partial (snd (QueryUpdate.build mm self)) = QueryUpdate.partial self
  /\ whereEntries (snd (QueryUpdate.build mm self))
     = whereEntries self
       ++ match ModelManager.getModel mm (QueryUpdate.model self) with
          | Ok table => identityEntries (QueryUpdate.model self) table
          | Throw _ => []
          end.
Proof.
  rewrite build_builder.
  destruct (ModelManager.getModel mm (QueryUpdate.model self)) as [table|e].
  - rewrite addIdentity_eq. unfold whereEntries. cbn [QueryUpdate.model QueryUpdate.partial
                                                      QueryUpdate.whereClauses].
    rewrite extend_entries. auto.
  - rewrite app_nil_r. auto.
Qed.

(** ** The where group after [where] *)

Lemma where_entries (self : QueryUpdate.t) (i : ClauseGroup.input) :
  whereEntries (QueryUpdate.where_ self i) = whereEntries self ++ ClauseGroup.normalize i.
Proof.
  unfold whereEntries, QueryUpdate.where_. cbn [QueryUpdate.whereClauses groupEntries].
  destruct (QueryUpdate.whereClauses self); reflexivity.
Qed.

(** ** Building again and again *)

Lemma repeated_entries_params (es : list Entry) (n : nat) (f : bool) :
  DbQuery.params (buildEntries f (concat (List.repeat es n)))
  = concat (List.repeat (DbQuery.params (buildEntries true es)) n).
Proof.
  induction n as [|n IH]; [reflexivity|].
  cbn [List.repeat concat]. rewrite buildEntries_app_params, IH.
  rewrite (buildEntries_params_first es f true). reflexivity.
Qed.

Lemma length_concat_repeat {A : Type} (l : list A) (n : nat) :
  length (concat (List.repeat l n)) = n * length l.
Proof.
  induction n as [|n IH]; [reflexivity|].
  cbn [List.repeat concat]. rewrite length_app, IH. reflexivity.
Qed.

(** The builder after [n] calls of [build] on a registered model. *)
Lemma buildTimes_registered (mm : ModelManager.t) (table : DbTable.t) (n : nat)
      (self : QueryUpdate.t) :
  ModelManager.getModel mm (QueryUpdate.model self) = Ok table ->
  QueryUpdate.model (buildTimes mm n self) = QueryUpdate.model self
  /\ whereEntries (buildTimes mm n self)
     = whereEntries self
       ++ concat (List.repeat (identityEntries (QueryUpdate.model self) table) n).
Proof.
  revert self. induction n as [|n IH]; intros self Hget.
  - cbn [buildTimes List.repeat concat]. rewrite app_nil_r. auto.
  - cbn [buildTimes]. rewrite build_builder, Hget.
    assert (Hmodel : QueryUpdate.model (QueryUpdate.addIdentity table self)
                     = QueryUpdate.model self) by (rewrite addIdentity_eq; reflexivity).
    assert (Hentries : whereEntries (QueryUpdate.addIdentity table self)
                       = whereEntries self ++ identityEntries (QueryUpdate.model self) table).
    { rewrite addIdentity_eq. unfold whereEntries. cbn [QueryUpdate.whereClauses].
      apply extend_entries. }
    destruct (IH (QueryUpdate.addIdentity table self)) as [Hm He];
      [rewrite Hmodel; exact Hget|].
    rewrite Hm, He, Hmodel, Hentries, <- app_assoc. auto.
Qed.

(** X3. Every [build] on a registered model adds the identity clauses to
    the where group once more: after [n] calls the group holds the
    caller's entries followed by [n] copies of the identity clauses, and
    the next call returns a query whose parameters are the SET values, the
    caller's values and [n + 1] copies of the identity values. *)
Theorem build_repeated (mm : ModelManager.t) (self : QueryUpdate.t) (table : DbTable.t)
        (n : nat) :
  ModelManager.getModel mm (QueryUpdate.model self) = Ok table ->
  whereEntries (buildTimes mm n self)
  = whereEntries self ++ concat (List.repeat (identityEntries (QueryUpdate.model self) table) n)
  /\ exists q,
      returned (QueryUpdate.build mm (buildTimes mm n self)) = Some q
      /\ DbQuery.params q
         = setValues (QueryUpdate.model self) table
           ++ DbQuery.params (buildEntries true (whereEntries self))
           ++ concat (List.repeat (identityValues (QueryUpdate.model self) table) (S n))
      /\ length (DbQuery.params q)
         = length (setValues (QueryUpdate.model self) table)
           + length (DbQuery.params (buildEntries true (whereEntries self)))
           + S n * length (identityValues (QueryUpdate.model self) table).
Proof.
  intros Hget. destruct (buildTimes_registered mm table n self Hget) as [Hm He].
  split; [exact He|].
  assert (Hget' : ModelManager.getModel mm (QueryUpdate.model (buildTimes mm n self)) = Ok table)
    by (rewrite Hm; exact Hget).
  assert (Hq : exists q, returned (QueryUpdate.build mm (buildTimes mm n self)) = Some q).
  { rewrite (build_registered _ _ table Hget'). eexists. reflexivity. }
  destruct Hq as [q Hq]. exists q. split; [exact Hq|].
  assert (Hp : DbQuery.params q
               = setValues (QueryUpdate.model self) table
                 ++ DbQuery.params (buildEntries true (whereEntries self))
                 ++ concat (List.repeat (identityValues (QueryUpdate.model self) table) (S n))).
  { rewrite (build_params mm _ table q Hget' Hq), Hm, He.
    rewrite buildEntries_app_params, repeated_entries_params.
    unfold identityValues. cbn [List.repeat concat].
    assert (Hcomm : forall (l : list JsValue) k,
               concat (List.repeat l k) ++ l = l ++ concat (List.repeat l k)).
    { intros l k. induction k as [|k IHk]; cbn [List.repeat concat].
      - rewrite app_nil_r. reflexivity.
      - rewrite <- app_assoc, IHk. reflexivity. }
    rewrite <- !app_assoc, Hcomm. reflexivity. }
  split; [exact Hp|].
  rewrite Hp, !length_app, length_concat_repeat. lia.
Qed.

Lemma build_repeated_witness :
  whereEntries (buildTimes todos 2 (Update (todo None) false))
  = whereEntries (Update (todo None) false)
    ++ concat (List.repeat (identityEntries (todo None) todoTable) 2)
  /\ exists q,
      returned (QueryUpdate.build todos (buildTimes todos 2 (Update (todo None) false))) = Some q
      /\ DbQuery.params q
         = setValues (todo None) todoTable
           ++ DbQuery.params (buildEntries true (whereEntries (Update (todo None) false)))
           ++ concat (List.repeat (identityValues (todo None) todoTable) 3)
      /\ length (DbQuery.params q)
         = length (setValues (todo None) todoTable)
           + length (DbQuery.params (buildEntries true (whereEntries (Update (todo None) false))))
           + 3 * length (identityValues (todo None) todoTable).
Proof.
  apply (build_repeated todos (Update (todo None) false) todoTable 2).
  vm_compute. reflexivity.
Defined.

(** ** A [where] without clause *)

(** X2. [build] tests whether the where group exists, not whether it
    holds a clause: after a [where] whose argument stands for no clause
    (an empty array, an empty object), on a builder without other clause
    and without identity clause, the text ends in the bare keyword [ WHERE]
    and no parameter is bound beyond the SET values. *)
Theorem where_without_clause
        (mm : ModelManager.t) (self : QueryUpdate.t) (table : DbTable.t)
        (clauses : ClauseGroup.input) :
  ModelManager.getModel mm (QueryUpdate.model self) = Ok table ->
  truthy (DbHelperModel.rowid (QueryUpdate.model self)) = false ->
  primaryKeys table = [] ->
  whereEntries self = [] ->
  ClauseGroup.normalize clauses = [] ->
  exists q,
    returned (QueryUpdate.build mm (QueryUpdate.where_ self clauses)) = Some q
    /\ DbQuery.query q = setText (QueryUpdate.model self) table +:+ " WHERE"
    /\ DbQuery.params q = setValues (QueryUpdate.model self) table.
Proof.
  intros Hget Hrow Hpk Hentries Hnone.
  assert (Hid : identityEntries (QueryUpdate.model (QueryUpdate.where_ self clauses)) table = []).
  { cbn [QueryUpdate.where_ QueryUpdate.model]. unfold identityEntries.
    rewrite Hrow, Hpk. reflexivity. }
  rewrite (build_registered _ (QueryUpdate.where_ self clauses) table)
    by (cbn [QueryUpdate.where_ QueryUpdate.model]; exact Hget).
  rewrite (addIdentity_none _ _ Hid).
  pose proof (where_entries self clauses) as He. rewrite Hentries, Hnone in He.
  unfold whereEntries in He.
  destruct (QueryUpdate.whereClauses (QueryUpdate.where_ self clauses)) as [g|] eqn:Hg;
    [|discriminate Hg].
  cbn [groupEntries app] in He. eexists. split; [reflexivity|].
  cbn [DbQuery.query DbQuery.params QueryUpdate.where_ QueryUpdate.model
       whereText whereParams].
  unfold ClauseGroup.build. rewrite He. cbn [buildEntries DbQuery.new DbQuery.query DbQuery.params].
  rewrite app_nil_r. split; reflexivity.
Qed.

Lemma where_without_clause_witness :
  exists q,
    returned (QueryUpdate.build persons
                (QueryUpdate.where_ (Update (person "x" None) false) (ClauseGroup.ofClauses [])))
    = Some q
    /\ DbQuery.query q = setText (person "x" None) personTable +:+ " WHERE"
    /\ DbQuery.params q = setValues (person "x" None) personTable.
Proof.
  apply (where_without_clause persons (Update (person "x" None) false) personTable
           (ClauseGroup.ofClauses [])).
  - vm_compute. reflexivity.
  - reflexivity.
  - reflexivity.
  - reflexivity.
  - reflexivity.
Defined.

(** ** Row identity against primary keys and caller clauses *)

(** X5. With a row identity other than 0 (negative ones included), and
    whatever the where group already holds, [build] adds the clause
    [rowid = (?)] and nothing else: no clause is synthesized for a column
    flagged primary-key, and the row identity is the last parameter. *)
Theorem rowid_overrides_primary_keys
        (mm : ModelManager.t) (self : QueryUpdate.t) (table : DbTable.t) (z : Z) :
  ModelManager.getModel mm (QueryUpdate.model self) = Ok table ->
  DbHelperModel.__rowid (QueryUpdate.model self) = Some z ->
  z <> 0%Z ->
  whereEntries (snd (QueryUpdate.build mm self))
  = whereEntries self ++ [EntryClause (rowidClause z)]
  /\ exists q,
      returned (QueryUpdate.build mm self) = Some q
      /\ DbQuery.params q
         = setValues (QueryUpdate.model self) table
           ++ DbQuery.params (buildEntries true (whereEntries self))
           ++ [JsNum z].
Proof.
  intros Hget Hrow Hz.
  assert (Hid : identityEntries (QueryUpdate.model self) table
                = [EntryClause (rowidClause z)]).
  { unfold identityEntries, DbHelperModel.rowid. rewrite Hrow. cbn [truthy].
    destruct (Z.eqb_spec z 0) as [->|_]; [contradiction|]. reflexivity. }
  split.
  - rewrite build_builder, Hget, addIdentity_eq, Hid. unfold whereEntries.
    cbn [QueryUpdate.whereClauses]. apply extend_entries.
  - assert (Hq : exists q, returned (QueryUpdate.build mm self) = Some q).
    { rewrite (build_registered _ _ table Hget). eexists. reflexivity. }
    destruct Hq as [q Hq]. exists q. split; [exact Hq|].
    rewrite (build_params mm self table q Hget Hq). unfold identityValues.
    rewrite Hid. reflexivity.
Qed.

Lemma rowid_overrides_primary_keys_witness :
  whereEntries
    (snd (QueryUpdate.build todos
            (QueryUpdate.where_ (Update (todo (Some (-1)%Z)) false) (ClauseGroup.ofClause notDone))))
  = whereEntries
      (QueryUpdate.where_ (Update (todo (Some (-1)%Z)) false) (ClauseGroup.ofClause notDone))
    ++ [EntryClause (rowidClause (-1))]
  /\ exists q,
      returned
        (QueryUpdate.build todos
           (QueryUpdate.where_ (Update (todo (Some (-1)%Z)) false) (ClauseGroup.ofClause notDone)))
      = Some q
      /\ DbQuery.params q
         = setValues (todo (Some (-1)%Z)) todoTable
           ++ DbQuery.params
                (buildEntries true
                   (whereEntries
                      (QueryUpdate.where_ (Update (todo (Some (-1)%Z)) false)
                         (ClauseGroup.ofClause notDone))))
           ++ [JsNum (-1)].
Proof.
  apply (rowid_overrides_primary_keys todos
           (QueryUpdate.where_ (Update (todo (Some (-1)%Z)) false) (ClauseGroup.ofClause notDone))
           todoTable (-1)).
  - vm_compute. reflexivity.
  - reflexivity.
  - lia.
Defined.

(** ** Fields missing on the instance *)

Lemma clause_values_in_params (c : Clause.t) (v : JsValue) (es : list Entry) (f : bool) :
  In (EntryClause c) es ->
  In v (Clause.boundValues c) ->
  In v (DbQuery.params (buildEntries f es)).
Proof.
  revert f. induction es as [|e es IH]; intros f Hin Hv; [contradiction|].
  cbn [buildEntries DbQuery.append DbQuery.params]. apply in_or_app.
  destruct Hin as [->|Hin].
  - left. destruct (buildEntry_clause f c) as [_ ->]. exact Hv.
  - right. apply IH; assumption.
Qed.

(** A property that the instance has nowhere reads as [undefined]. *)
Lemma get_lacking (m : DbHelperModel.t) (f : string) :
  DbHelperModel.has m f = false -> DbHelperModel.get m f = JsUndefined.
Proof.
  unfold DbHelperModel.has, DbHelperModel.get, DbHelperModel.rowid, DbHelperModel.projection.
  destruct (String.eqb f "__rowid").
  - destruct (DbHelperModel.__rowid m); [|reflexivity].
    intros H. apply bool_decide_eq_false in H. exfalso. apply H. eauto.
  - destruct (String.eqb f "__partialWithProjection").
    + destruct (DbHelperModel.__partialWithProjection m); [|reflexivity].
      intros H. apply bool_decide_eq_false in H. exfalso. apply H. eauto.
    + intros H. apply orb_false_iff in H. destruct H as [Hown Hinh].
      apply bool_decide_eq_false in Hown. apply bool_decide_eq_false in Hinh.
      destruct (DbHelperModel.fields m !! f); [exfalso; apply Hown; eauto|].
      destruct (DbHelperModel.inherited m !! f); [exfalso; apply Hinh; eauto|].
      reflexivity.
Qed.

(** X6. A property that the instance has neither as its own (a field, a
    set internal property) nor by inheritance is read as [undefined] and
    bound like any value: for a column flagged primary-key whose field
    names such a property, and no truthy row identity, [build] still
    returns, the where group holds the clause [<column> = (?)] bound to
    [undefined], and [undefined] is among the parameters. *)
Theorem missing_key_field_binds_undefined
        (mm : ModelManager.t) (self : QueryUpdate.t) (table : DbTable.t)
        (column : DbColumn.t) :
  ModelManager.getModel mm (QueryUpdate.model self) = Ok table ->
  truthy (DbHelperModel.rowid (QueryUpdate.model self)) = false ->
  In column (primaryKeys table) ->
  DbHelperModel.has (QueryUpdate.model self) (DbColumn.field column) = false ->
  exists q,
    returned (QueryUpdate.build mm self) = Some q
    /\ In (EntryClause {| Clause.key := DbColumn.name column; Clause.operator := "=";
                          Clause.value := JsUndefined; Clause.connector := AND |})
          (whereEntries (snd (QueryUpdate.build mm self)))
    /\ In JsUndefined (DbQuery.params q).
Proof.
  intros Hget Hrow Hin Hmissing.
  assert (Hvalue : valueOf (QueryUpdate.model self) column = JsUndefined).
  { unfold valueOf. apply get_lacking, Hmissing. }
  assert (Hentry :
    In (EntryClause {| Clause.key := DbColumn.name column; Clause.operator := "=";
                       Clause.value := JsUndefined; Clause.connector := AND |})
       (identityEntries (QueryUpdate.model self) table)).
  { unfold identityEntries. rewrite Hrow. apply in_map_iff.
    exists column. split; [|exact Hin]. unfold keyClause. rewrite Hvalue. reflexivity. }
  assert (Hq : exists q, returned (QueryUpdate.build mm self) = Some q).
  { rewrite (build_registered _ _ table Hget). eexists. reflexivity. }
  destruct Hq as [q Hq]. exists q. split; [exact Hq|]. split.
  - rewrite build_builder, Hget, addIdentity_eq. unfold whereEntries.
    cbn [QueryUpdate.whereClauses]. rewrite extend_entries.
    apply in_or_app. right. exact Hentry.
  - rewrite (build_params mm self table q Hget Hq).
    apply in_or_app. right. apply in_or_app. right. unfold identityValues.
    apply (clause_values_in_params _ JsUndefined _ true Hentry). left. reflexivity.
Qed.

Lemma missing_key_field_binds_undefined_witness :
  exists q,
    returned (QueryUpdate.build (registry "Person" todoTable) (Update (person "x" None) false))
    = Some q
    /\ In (EntryClause {| Clause.key := "id"; Clause.operator := "=";
                          Clause.value := JsUndefined; Clause.connector := AND |})
          (whereEntries
             (snd (QueryUpdate.build (registry "Person" todoTable)
                     (Update (person "x" None) false))))
    /\ In JsUndefined (DbQuery.params q).
Proof.
  apply (missing_key_field_binds_undefined (registry "Person" todoTable)
           (Update (person "x" None) false) todoTable (column "id" true)).
  - vm_compute. reflexivity.
  - reflexivity.
  - vm_compute. left. reflexivity.
  - vm_compute. reflexivity.
Defined.

(** ** The SET list against the column list *)

Lemma filter_map_sublist {A B : Type} (h : A -> B) (f g : A -> bool) (l : list A) :
  (forall x, In x l -> f x = true -> g x = true) ->
  sublist (map h (List.filter f l)) (map h (List.filter g l)).
Proof.
  induction l as [|x l IH]; intros Himp; [constructor|].
  assert (IH' : sublist (map h (List.filter f l)) (map h (List.filter g l))).
  { apply IH. intros y Hy. apply Himp. right. exact Hy. }
  cbn [List.filter]. destruct (f x) eqn:Hf.
  - rewrite (Himp x (or_introl eq_refl) Hf). cbn [map]. apply sublist_skip, IH'.
  - destruct (g x); [cbn [map]; apply sublist_cons, IH' | exact IH'].
Qed.

Lemma filter_all {A : Type} (l : list A) : List.filter (fun _ => true) l = l.
Proof. induction l as [|x l IH]; [reflexivity|]. cbn [List.filter]. rewrite IH. reflexivity. Qed.

Lemma setList_kept (m : DbHelperModel.t) (table : DbTable.t) :
  setList m table = map DbColumn.name (List.filter (keeps m) (DbTable.columnList table))
  /\ setValues m table = map (valueOf m) (List.filter (keeps m) (DbTable.columnList table)).
Proof. unfold setList, setValues. rewrite selectColumns_filter. split; reflexivity. Qed.

(** X8. The SET list is a sublist of the declared column names: [build]
    sets no column that the table does not declare, keeps the declared
    order, and sets no column twice when the declared names are distinct;
    it binds exactly one value per column of the list. *)
Theorem set_list_within_columns (m : DbHelperModel.t) (table : DbTable.t) :
  sublist (setList m table) (map DbColumn.name (DbTable.columnList table))
  /\ (NoDup (map DbColumn.name (DbTable.columnList table)) -> NoDup (setList m table))
  /\ length (setValues m table) = length (setList m table)
  /\ length (setList m table) <= length (DbTable.columnList table).
Proof.
  destruct (setList_kept m table) as [Hl Hv].
  assert (Hsub : sublist (setList m table) (map DbColumn.name (DbTable.columnList table))).
  { rewrite Hl. rewrite <- (filter_all (DbTable.columnList table)) at 2.
    apply filter_map_sublist. reflexivity. }
  split; [exact Hsub|]. split; [intros Hnd; eapply sublist_NoDup; eassumption|].
  split; [rewrite Hl, Hv, !length_map; reflexivity|].
  apply sublist_length in Hsub. rewrite length_map in Hsub. exact Hsub.
Qed.

Lemma set_list_within_columns_witness :
  sublist (setList (person "x" (Some ["name"])) personTable)
          (map DbColumn.name (DbTable.columnList personTable))
  /\ NoDup (setList (person "x" (Some ["name"])) personTable).
Proof.
  destruct (set_list_within_columns (person "x" (Some ["name"])) personTable)
    as (Hsub & Hnodup & _).
  split; [exact Hsub|]. apply Hnodup.
  apply (bool_decide_unpack _). vm_compute. exact I.
Defined.




(** ** Key columns in full mode *)

(** X7. Without projection the columns flagged primary-key are in the SET
    list like any other: when the identity comes from the primary key, a
    key column with a scalar value is assigned its own value in the SET
    part and matched against it in the WHERE part, so the value is bound
    in both places. *)
Theorem full_update_assigns_key
        (mm : ModelManager.t) (self : QueryUpdate.t) (table : DbTable.t)
        (column : DbColumn.t) :
  ModelManager.getModel mm (QueryUpdate.model self) = Ok table ->
  DbHelperModel.__partialWithProjection (QueryUpdate.model self) = None ->
  truthy (DbHelperModel.rowid (QueryUpdate.model self)) = false ->
  In column (primaryKeys table) ->
  isScalar (valueOf (QueryUpdate.model self) column) = true ->
  In (DbColumn.name column) (setList (QueryUpdate.model self) table)
  /\ In (valueOf (QueryUpdate.model self) column) (setValues (QueryUpdate.model self) table)
  /\ In (valueOf (QueryUpdate.model self) column) (identityValues (QueryUpdate.model self) table)
  /\ exists q,
      returned (QueryUpdate.build mm self) = Some q
      /\ DbQuery.params q
         = setValues (QueryUpdate.model self) table
           ++ DbQuery.params (buildEntries true (whereEntries self))
           ++ identityValues (QueryUpdate.model self) table.
Proof.
  intros Hget Hfull Hrow Hin Hscalar.
  destruct (setList_kept (QueryUpdate.model self) table) as [Hl Hv].
  assert (Hkept : In column (List.filter (keeps (QueryUpdate.model self))
                               (DbTable.columnList table))).
  { apply filter_In. unfold primaryKeys in Hin. apply filter_In in Hin.
    split; [exact (proj1 Hin)|]. unfold keeps. rewrite Hfull. reflexivity. }
  split; [rewrite Hl; apply in_map; exact Hkept|].
  split; [rewrite Hv; apply in_map; exact Hkept|].
  split.
  - unfold identityValues, identityEntries. rewrite Hrow.
    apply (clause_values_in_params (keyClause (QueryUpdate.model self) column)).
    + apply in_map_iff. exists column. split; [reflexivity | exact Hin].
    + destruct (keyClause_scalar _ _ Hscalar) as [_ ->]. left. reflexivity.
  - assert (Hq : exists q, returned (QueryUpdate.build mm self) = Some q).
    { rewrite (build_registered _ _ table Hget). eexists. reflexivity. }
    destruct Hq as [q Hq]. exists q. split; [exact Hq|].
    exact (build_params mm self table q Hget Hq).
Qed.

Lemma full_update_assigns_key_witness :
  In "id" (setList (todo None) todoTable)
  /\ In (valueOf (todo None) (column "id" true)) (setValues (todo None) todoTable)
  /\ In (valueOf (todo None) (column "id" true)) (identityValues (todo None) todoTable)
  /\ exists q,
      returned (QueryUpdate.build todos (Update (todo None) false)) = Some q
      /\ DbQuery.params q
         = setValues (todo None) todoTable
           ++ DbQuery.params (buildEntries true (whereEntries (Update (todo None) false)))
           ++ identityValues (todo None) todoTable.
Proof.
  apply (full_update_assigns_key todos (Update (todo None) false) todoTable (column "id" true)).
  - vm_compute. reflexivity.
  - reflexivity.
  - reflexivity.
  - vm_compute. left. reflexivity.
  - vm_compute. reflexivity.
Defined.

(** ** The empty SET list *)

Lemma filter_nil_iff {A : Type} (f : A -> bool) (l : list A) :
  List.filter f l = [] <-> forall x, In x l -> f x = false.
Proof.
  induction l as [|x l IH]; [split; [intros _ y [] | reflexivity]|].
  cbn [List.filter]. destruct (f x) eqn:Hf.
  - split; [discriminate|]. intros H. rewrite (H x (or_introl eq_refl)) in Hf. discriminate Hf.
  - rewrite IH. split.
    + intros H y [<-|Hy]; [exact Hf | exact (H y Hy)].
    + intros H y Hy. apply H. right. exact Hy.
Qed.

(** X10. The SET list is empty exactly when the column list is empty
    (without projection) or when no column is named in the projection and
    every field is falsy (with one); [build] then still returns, with the
    text [UPDATE <table> SET  = (?) ] in front of the where part and with
    no parameter but those of the where part. *)
Theorem empty_set_list
        (mm : ModelManager.t) (self : QueryUpdate.t) (table : DbTable.t) (q : DbQuery.t) :
  ModelManager.getModel mm (QueryUpdate.model self) = Ok table ->
  returned (QueryUpdate.build mm self) = Some q ->
  (setList (QueryUpdate.model self) table = []
   <-> match DbHelperModel.__partialWithProjection (QueryUpdate.model self) with
       | None => DbTable.columnList table = []
       | Some projection =>
           forall column,
             In column (DbTable.columnList table) ->
             ~ In (DbColumn.name column) projection
             /\ truthy (valueOf (QueryUpdate.model self) column) = false
       end)
  /\ (setList (QueryUpdate.model self) table = [] ->
      DbQuery.query q
      = "UPDATE " +:+ DbTable.name table +:+ " SET  = (?) "
        +:+ whereText (QueryUpdate.whereClauses (snd (QueryUpdate.build mm self)))
      /\ DbQuery.params q
         = whereParams (QueryUpdate.whereClauses (snd (QueryUpdate.build mm self)))).
Proof.
  intros Hget Hq. set (m := QueryUpdate.model self) in *.
  destruct (setList_kept m table) as [Hl Hv]. split.
  - rewrite Hl. split.
    + intros Hnil. apply map_eq_nil in Hnil.
      pose proof (proj1 (filter_nil_iff _ _) Hnil) as Hall. unfold keeps in Hall.
      destruct (DbHelperModel.__partialWithProjection m) as [p|].
      * intros c Hc. specialize (Hall c Hc). apply orb_false_iff in Hall.
        destruct Hall as [Hi Ht]. split; [|exact Ht].
        intros Hin. apply indexOf_In in Hin. congruence.
      * destruct (DbTable.columnList table) as [|c cl]; [reflexivity|].
        discriminate (Hall c (or_introl eq_refl)).
    + intros H. replace (List.filter (keeps m) (DbTable.columnList table)) with (@nil DbColumn.t);
        [reflexivity|].
      symmetry. apply filter_nil_iff. intros c Hc. unfold keeps.
      destruct (DbHelperModel.__partialWithProjection m) as [p|].
      * destruct (H c Hc) as [Hnot Ht]. fold (valueOf m c). rewrite Ht, orb_false_r.
        destruct (0 <=? indexOf (DbColumn.name c) p)%Z eqn:Hi; [|reflexivity].
        exfalso. apply Hnot, indexOf_In, Hi.
      * rewrite H in Hc. contradiction.
  - intros Hnil. rewrite (build_registered _ _ table Hget) in Hq |- *.
    cbn [returned fst snd] in *. injection Hq as <-. cbn [DbQuery.query DbQuery.params].
    fold m. unfold setText. rewrite Hnil.
    assert (Hvalues : setValues m table = []).
    { rewrite Hv. rewrite Hl in Hnil. apply map_eq_nil in Hnil. rewrite Hnil. reflexivity. }
    rewrite Hvalues. cbn [app]. split; [|reflexivity].
    rewrite !append_assoc. reflexivity.
Qed.

Lemma empty_set_list_witness :
  exists q,
    returned (QueryUpdate.build persons (Update (person "" (Some [])) false)) = Some q
    /\ setList (person "" (Some [])) personTable = []
    /\ DbQuery.query q
       = "UPDATE " +:+ DbTable.name personTable +:+ " SET  = (?) "
         +:+ whereText
               (QueryUpdate.whereClauses
                  (snd (QueryUpdate.build persons (Update (person "" (Some [])) false))))
    /\ DbQuery.params q
       = whereParams
           (QueryUpdate.whereClauses
              (snd (QueryUpdate.build persons (Update (person "" (Some [])) false)))).
Proof.
  eexists. split; [vm_compute; reflexivity|].
  assert (Hnil : setList (person "" (Some [])) personTable = []) by (vm_compute; reflexivity).
  split; [exact Hnil|].
  refine (proj2 (empty_set_list persons (Update (person "" (Some [])) false) personTable _ _ _) Hnil);
    vm_compute; reflexivity.
Defined.

(** ** Question marks against parameters *)

Lemma placeholders_against_params_witness :
  exists q,
    returned (QueryUpdate.build todos
                (QueryUpdate.where_ (Update (todo (Some 5%Z)) false) (ClauseGroup.ofClause notDone)))
    = Some q
    /\ countQuestionMarks (DbQuery.query q)
       = length (DbQuery.params q)
         + match setList (todo (Some 5%Z)) todoTable with [] => 1 | _ :: _ => 0 end.
Proof.
  eexists. split; [vm_compute; reflexivity|].
  apply (placeholders_against_params todos
           (QueryUpdate.where_ (Update (todo (Some 5%Z)) false) (ClauseGroup.ofClause notDone))
           todoTable); vm_compute; reflexivity.
Defined.

(** ** When the statement has no WHERE part *)

Lemma extend_none_iff (w : option ClauseGroup.t) (es : list Entry) :
  extend w es = None <-> w = None /\ es = [].
Proof.
  destruct es as [|e es]; cbn [extend].
  - split; [auto | intros [H _]; exact H].
  - split; [discriminate | intros [_ H]; discriminate H].
Qed.

Lemma identityEntries_nil_iff (m : DbHelperModel.t) (table : DbTable.t) :
  identityEntries m table = []
  <-> truthy (DbHelperModel.rowid m) = false /\ primaryKeys table = [].
Proof.
  unfold identityEntries. destruct (truthy (DbHelperModel.rowid m)).
  - split; [discriminate | intros [H _]; discriminate H].
  - split.
    + intros H. apply map_eq_nil in H. auto.
    + intros [_ ->]. reflexivity.
Qed.

(** X12. The statement is unconditional exactly when nothing asked for a
    condition: the text of a built query is the SET part alone if and only
    if [where] was never called on the builder, the row identity is unset
    or 0 and no column is flagged primary-key; in every other case the
    keyword [ WHERE] follows the SET part. *)
Theorem unconditional_update_iff
        (mm : ModelManager.t) (self : QueryUpdate.t) (table : DbTable.t) (q : DbQuery.t) :
  ModelManager.getModel mm (QueryUpdate.model self) = Ok table ->
  returned (QueryUpdate.build mm self) = Some q ->
  (DbQuery.query q = setText (QueryUpdate.model self) table
   <-> QueryUpdate.whereClauses self = None
       /\ truthy (DbHelperModel.rowid (QueryUpdate.model self)) = false
       /\ primaryKeys table = [])
  /\ (DbQuery.query q = setText (QueryUpdate.model self) table
      \/ exists rest,
          DbQuery.query q = setText (QueryUpdate.model self) table +:+ " WHERE" +:+ rest).
Proof.
  intros Hget Hq. rewrite (build_registered _ _ table Hget), addIdentity_eq in Hq.
  cbn [returned fst QueryUpdate.whereClauses] in Hq. injection Hq as <-.
  cbn [DbQuery.query].
  destruct (extend (QueryUpdate.whereClauses self)
              (identityEntries (QueryUpdate.model self) table)) as [g|] eqn:Hext.
  - cbn [whereText]. split.
    + split.
      * intros Heq. rewrite <- (append_nil_r (setText _ _)) in Heq at 2.
        apply String.app_inj in Heq. discriminate Heq.
      * intros (Hw & Hrow & Hpk).
        assert (Hnone : extend (QueryUpdate.whereClauses self)
                          (identityEntries (QueryUpdate.model self) table) = None).
        { apply extend_none_iff. split; [exact Hw|].
          apply identityEntries_nil_iff. auto. }
        congruence.
    + right. eexists. reflexivity.
  - cbn [whereText]. rewrite append_nil_r.
    apply extend_none_iff in Hext. destruct Hext as [Hw Hid].
    apply identityEntries_nil_iff in Hid. split; [|left; reflexivity].
    split; [intros _; tauto | reflexivity].
Qed.

Lemma unconditional_update_iff_witness :
  exists q,
    returned (QueryUpdate.build persons (Update (person "x" None) false)) = Some q
    /\ DbQuery.query q = setText (person "x" None) personTable.
Proof.
  eexists. split; [vm_compute; reflexivity|].
  refine (proj2 (proj1 (unconditional_update_iff persons (Update (person "x" None) false)
                          personTable _ _ _)) _).
  - vm_compute. reflexivity.
  - vm_compute. reflexivity.
  - repeat split.
Defined.

(** ** What [build] reads of the instance *)

(** X13. [build] reads of the instance its row identity, its projection
    and the fields that the columns of its table name, nothing else: two
    instances that agree on these yield the same outcome, whatever other
    properties they carry. *)
Theorem build_reads_mapped_fields_only
        (mm : ModelManager.t) (table : DbTable.t) (m1 m2 : DbHelperModel.t)
        (partial : bool) (w : option ClauseGroup.t) :
  ModelManager.getModel mm m1 = Ok table ->
  ModelManager.getModel mm m2 = Ok table ->
  DbHelperModel.__rowid m1 = DbHelperModel.__rowid m2 ->
  DbHelperModel.__partialWithProjection m1 = DbHelperModel.__partialWithProjection m2 ->
  (forall column,
      In column (DbTable.columnList table) ->
      DbHelperModel.get m1 (DbColumn.field column) = DbHelperModel.get m2 (DbColumn.field column)) ->
  fst (QueryUpdate.build mm
         {| QueryUpdate.model := m1; QueryUpdate.partial := partial;
            QueryUpdate.whereClauses := w |})
  = fst (QueryUpdate.build mm
           {| QueryUpdate.model := m2; QueryUpdate.partial := partial;
              QueryUpdate.whereClauses := w |}).
Proof.
  intros Hget1 Hget2 Hrow Hproj Hfields.
  rewrite (build_registered mm
             {| QueryUpdate.model := m1; QueryUpdate.partial := partial;
                QueryUpdate.whereClauses := w |} table Hget1).
  rewrite (build_registered mm
             {| QueryUpdate.model := m2; QueryUpdate.partial := partial;
                QueryUpdate.whereClauses := w |} table Hget2).
  rewrite !addIdentity_eq. cbn [fst QueryUpdate.model QueryUpdate.whereClauses].
  assert (Hkeeps : List.filter (keeps m1) (DbTable.columnList table)
                   = List.filter (keeps m2) (DbTable.columnList table)).
  { apply filter_ext_in. intros c Hc. unfold keeps. rewrite Hproj, (Hfields c Hc). reflexivity. }
  assert (Hlist : setList m1 table = setList m2 table).
  { destruct (setList_kept m1 table) as [-> _]. destruct (setList_kept m2 table) as [-> _].
    rewrite Hkeeps. reflexivity. }
  assert (Hvalues : setValues m1 table = setValues m2 table).
  { destruct (setList_kept m1 table) as [_ ->]. destruct (setList_kept m2 table) as [_ ->].
    rewrite Hkeeps. apply map_ext_in. intros c Hc. apply filter_In in Hc.
    unfold valueOf. apply Hfields, Hc. }
  assert (Hid : identityEntries m1 table = identityEntries m2 table).
  { unfold identityEntries, DbHelperModel.rowid. rewrite Hrow.
    destruct (truthy _); [reflexivity|].
    apply map_ext_in. intros c Hc. unfold primaryKeys in Hc. apply filter_In in Hc.
    unfold keyClause, valueOf. rewrite (Hfields c (proj1 Hc)). reflexivity. }
  unfold setText. rewrite Hlist, Hvalues, Hid. reflexivity.
Qed.

Lemma build_reads_mapped_fields_only_witness :
  fst (QueryUpdate.build (registry "Person" personTable)
         {| QueryUpdate.model := person "x" None; QueryUpdate.partial := false;
            QueryUpdate.whereClauses := None |})
  = fst (QueryUpdate.build (registry "Person" personTable)
           {| QueryUpdate.model :=
                {| DbHelperModel.modelType := "Person";
                   DbHelperModel.__rowid := None;
                   DbHelperModel.__partialWithProjection := None;
                   DbHelperModel.fields :=
                     <["secret" := JsStr "s"]>
                       (<["name" := JsStr "x"]> (<["age" := JsNum 0]> ∅));
                   DbHelperModel.inherited := modelPrototype |};
              QueryUpdate.partial := false;
              QueryUpdate.whereClauses := None |}).
Proof.
  apply (build_reads_mapped_fields_only (registry "Person" personTable) personTable).
  - vm_compute. reflexivity.
  - vm_compute. reflexivity.
  - reflexivity.
  - reflexivity.
  - intros c [<-|[<-|[]]]; vm_compute; reflexivity.
Defined.
